(** * Real-time collaborative task manager: the synchronization engine

    A shallow embedding of the operational-transform service and the
    presence service of [real-time-collaboration-guide.md], and of the
    socket gateway of [backend/src/socket/socketHandler.ts].

    Conventions of the embedding:
    - a JavaScript [number] that holds a position, a length, a version or a
      millisecond timestamp is a [Z];
    - a JavaScript string that is edited ([content]) is the list of its code
      units, [list ascii]; identifiers, room names and keys are [string];
    - a [Map<string, V>] that is only looked up by key is a [gmap string V];
      the presence [Map], which the sweep iterates, is an association list
      in insertion order;
    - an [await]ed call to Redis or to the database may throw: the functions
      take the outcome of each such call as a boolean argument. *)

From Stdlib Require Import ZArith Lia List Ascii String Bool.
From stdpp Require Import base option list gmap strings.

Local Open Scope Z_scope.

(** ** JavaScript strings *)

Module JS.

(** The code units of a string literal. *)
Definition chars (s : string) : list ascii := String.list_ascii_of_string s.

(** [String.prototype.slice] resolves an index relative to the length: a
    negative index counts from the end, and the result is clamped to
    [0 .. len]. *)
Definition relIndex (len i : Z) : Z :=
  if i <? 0 then Z.max (len + i) 0 else Z.min i len.

(** [s.slice(start, end)] *)
Definition slice (s : list ascii) (start stop : Z) : list ascii :=
  let len := Z.of_nat (List.length s) in
  let from := relIndex len start in
  let to := relIndex len stop in
  take (Z.to_nat (to - from)) (drop (Z.to_nat from) s).

(** [s.slice(start)] *)
Definition sliceFrom (s : list ascii) (start : Z) : list ascii :=
  slice s start (Z.of_nat (List.length s)).

(** [s.length] *)
Definition strlen (s : list ascii) : Z := Z.of_nat (List.length s).

End JS.

(** ** The operation model ([Operation], [OperationType]) *)

Inductive OperationType := Insert | Delete | Retain | Format.

Definition OperationType_eqb (a b : OperationType) : bool :=
  match a, b with
  | Insert, Insert | Delete, Delete | Retain, Retain | Format, Format => true
  | _, _ => false
  end.

(** [interface Operation]. The optional fields [length] and [content] are
    total here: the code reads [length] only of a delete and [content] only
    of an insert, and [validateOperation] accepts a delete only with a
    numeric [length] and an insert only with a [content]. [entityType] and
    [entityId] are the two further properties the services read off an
    operation. *)
Record Operation := mkOperation {
  op_id : string;
  op_type : OperationType;
  op_position : Z;
  op_length : Z;
  op_content : list ascii;
  op_attributes : list (string * string);
  op_userId : string;
  op_timestamp : Z;
  op_sequenceNumber : Z;
  op_entityType : string;
  op_entityId : string
}.

(** [{ ...op, position: p }] *)
Definition withPosition (op : Operation) (p : Z) : Operation :=
  mkOperation (op_id op) (op_type op) p (op_length op) (op_content op)
    (op_attributes op) (op_userId op) (op_timestamp op)
    (op_sequenceNumber op) (op_entityType op) (op_entityId op).

(** [{ ...op, length: l }] *)
Definition withLength (op : Operation) (l : Z) : Operation :=
  mkOperation (op_id op) (op_type op) (op_position op) l (op_content op)
    (op_attributes op) (op_userId op) (op_timestamp op)
    (op_sequenceNumber op) (op_entityType op) (op_entityId op).

(** Constructors for the examples: an insert and a delete of a given
    author, issued at a given time. *)
Definition mkInsert (i : string) (p : Z) (c : string) (u : string) (t : Z)
  : Operation :=
  mkOperation i Insert p 0 (JS.chars c) [] u t 0 "task" "42".

Definition mkDelete (i : string) (p l : Z) (u : string) (t : Z) : Operation :=
  mkOperation i Delete p l [] [] u t 0 "task" "42".

(** ** [OperationalTransformService] *)

Module OT.

(** [transformInsertInsert] *)
Definition transformInsertInsert (op1 op2 : Operation) : Operation :=
  if op_position op1 <=? op_position op2 then op1
  else withPosition op1 (op_position op1 + JS.strlen (op_content op2)).

(** [transformInsertDelete] *)
Definition transformInsertDelete (op1 op2 : Operation) : Operation :=
  if op_position op1 <=? op_position op2 then op1
  else if op_position op1 >=? op_position op2 + op_length op2 then
    withPosition op1 (op_position op1 - op_length op2)
  else withPosition op1 (op_position op2).

(** [transformDeleteInsert] *)
Definition transformDeleteInsert (op1 op2 : Operation) : Operation :=
  if op_position op1 + op_length op1 <=? op_position op2 then op1
  else if op_position op1 >=? op_position op2 then
    withPosition op1 (op_position op1 + JS.strlen (op_content op2))
  else withLength op1 (op_position op1 - op_position op2).

(** [transformDeleteDelete] *)
Definition transformDeleteDelete (op1 op2 : Operation) : Operation :=
  if op_position op1 + op_length op1 <=? op_position op2 then op1
  else if op_position op1 >=? op_position op2 + op_length op2 then
    withPosition op1 (op_position op1 - op_length op2)
  else
    let start1 := op_position op1 in
    let end1 := op_position op1 + op_length op1 in
    let start2 := op_position op2 in
    let end2 := op_position op2 + op_length op2 in
    if (start1 <=? start2) && (end1 >=? end2) then
      withLength op1 (op_length op1 - op_length op2)
    else if (start1 >=? start2) && (end1 <=? end2) then
      withLength op1 0
    else
      let overlap := Z.min end1 end2 - Z.max start1 start2 in
      withLength op1 (op_length op1 - overlap).

(** [transform] *)
Definition transform (op1 op2 : Operation) : Operation :=
  match op_type op1, op_type op2 with
  | Insert, Insert => transformInsertInsert op1 op2
  | Insert, Delete => transformInsertDelete op1 op2
  | Delete, Insert => transformDeleteInsert op1 op2
  | Delete, Delete => transformDeleteDelete op1 op2
  | _, _ => op1
  end.

(** [applyToContent] *)
Definition applyToContent (content : list ascii) (operation : Operation)
  : list ascii :=
  match op_type operation with
  | Insert =>
      JS.slice content 0 (op_position operation)
        ++ op_content operation
        ++ JS.sliceFrom content (op_position operation)
  | Delete =>
      JS.slice content 0 (op_position operation)
        ++ JS.sliceFrom content (op_position operation + op_length operation)
  | _ => content
  end.

(** [interface DocumentState] *)
Record DocumentState := mkDocumentState {
  content : list ascii;
  version : Z;
  operations : list Operation
}.

(** [interface TransformResult] *)
Record TransformResult := mkTransformResult {
  tr_operation : Operation;
  tr_content : list ascii;
  tr_version : Z
}.

(** What a call of an [async] method ends in. *)
Inductive Outcome (A : Type) :=
| Returned (a : A)
| Thrown (message : string).
Arguments Returned {A} a.
Arguments Thrown {A} message.

(** The service: the [documentStates] map and the rows that
    [persistOperation] has created in the database, oldest first. *)
Record Service := mkService {
  documentStates : gmap string DocumentState;
  persisted : list (string * Operation)
}.

(** [initializeDocument] *)
Definition initializeDocument (entityId : string) (c : list ascii)
    (s : Service) : Service :=
  mkService (<[entityId := mkDocumentState c 0 []]> (documentStates s))
    (persisted s).

(** [areConcurrent] *)
Definition areConcurrent (op1 op2 : Operation) : bool :=
  negb (String.eqb (op_userId op1) (op_userId op2))
    && (Z.abs (op_timestamp op1 - op_timestamp op2) <? 1000).

(** [transformOperation]: the loop over [docState.operations]. *)
Definition transformOperation (operation : Operation)
    (docState : DocumentState) : Operation :=
  fold_left
    (fun transformedOp concurrentOp =>
       if areConcurrent operation concurrentOp
       then transform transformedOp concurrentOp
       else transformedOp)
    (operations docState) operation.

(** [applyOperation]. [persistFails] tells whether [persistOperation]
    throws; the document state is written before it is called. *)
Definition applyOperation (entityId : string) (operation : Operation)
    (persistFails : bool) (s : Service)
  : Service * Outcome TransformResult :=
  match documentStates s !! entityId with
  | None => (s, Thrown "Document not found")
  | Some docState =>
      let transformedOp := transformOperation operation docState in
      let newContent := applyToContent (content docState) transformedOp in
      let docState' :=
        mkDocumentState newContent (version docState + 1)
          (operations docState ++ [transformedOp]) in
      let s1 :=
        mkService (<[entityId := docState']> (documentStates s))
          (persisted s) in
      if persistFails then (s1, Thrown "persistOperation failed")
      else
        (mkService (documentStates s1)
           (persisted s1 ++ [(entityId, transformedOp)]),
         Returned
           (mkTransformResult transformedOp newContent
              (version docState')))
  end.

(** A run of [applyOperation] calls on one entity, none of which throws:
    [None] as soon as one does. *)
Fixpoint applyAll (entityId : string) (ops : list Operation) (s : Service)
  : option Service :=
  match ops with
  | [] => Some s
  | operation :: rest =>
      match applyOperation entityId operation false s with
      | (s', Returned _) => applyAll entityId rest s'
      | (_, Thrown _) => None
      end
  end.

End OT.

(** ** The socket gateway ([socketHandler.ts]) *)

Module Gateway.

(** What the handler emits: to the submitting socket ([socket.emit]) or to
    the other members of a room ([socket.to(room).emit]). *)
Inductive Payload :=
| OperationError (operationId : string) (error : string)
| OperationAck (operationId : string) (version : Z)
| OperationReceive (entityType entityId : string) (operation : Operation)
    (version : Z).

Inductive Emit :=
| ToSender (p : Payload)
| ToRoom (room : string) (p : Payload).

(** [interface OperationData]; the handler tests [data.operation] for
    presence, hence the option. *)
Record OperationData := mkOperationData {
  od_entityType : string;
  od_entityId : string;
  od_operation : option Operation;
  od_version : Z
}.

(** A row of [prisma.operation]. *)
Record OperationRow := mkOperationRow {
  row_entityType : string;
  row_entityId : string;
  row_userId : string;
  row_operationType : OperationType;
  row_operationData : Operation;
  row_sequenceNumber : Z
}.

(** The state behind the gateway: the Redis keys that hold versions (the
    decimal string Redis keeps is the integer [parseInt] reads back) and
    the operation table, oldest row first. *)
Record Store := mkStore {
  redis : gmap string Z;
  operationTable : list OperationRow
}.

(** Which of the awaited calls of one submission throw: the Redis read of
    the handler, the Redis read and write of [applyOperation], and
    [prisma.operation.create]. *)
Record Faults := mkFaults {
  handlerGetFails : bool;
  applyGetFails : bool;
  setFails : bool;
  createFails : bool
}.

Definition noFaults : Faults := mkFaults false false false false.

(** The code as it is written: the [cacheUtils] object of [redis.ts]
    declares neither [getRedisValue] nor [setRedisValue], so each of the
    three Redis calls throws a [TypeError] on every submission.
    [getCurrentVersion] catches it, [applyOperation] rethrows it at the
    write and never reaches [prisma.operation.create]. The other fault
    patterns are those of a [cacheUtils] that provides the two functions. *)
Definition asWritten : Faults := mkFaults true true true false.

Definition versionKey (entityType entityId : string) : string :=
  "version:" +:+ entityType +:+ ":" +:+ entityId.

Definition roomOf (entityType entityId : string) : string :=
  entityType +:+ ":" +:+ entityId.

(** [getCurrentVersion]: a failed read is caught and gives 0, as does a
    missing key. *)
Definition getCurrentVersion (entityType entityId : string)
    (getFails : bool) (st : Store) : Z :=
  if getFails then 0
  else
    match redis st !! versionKey entityType entityId with
    | Some cachedVersion => cachedVersion
    | None => 0
    end.

Definition validTypes : list OperationType := [Insert; Delete; Retain; Format].

(** [validateOperation] *)
Definition validateOperation (operation : Operation) : bool :=
  if String.eqb (op_id operation) "" then false
  else if negb (existsb (OperationType_eqb (op_type operation)) validTypes)
  then false
  else if op_position operation <? 0 then false
  else if OperationType_eqb (op_type operation) Delete
          && (op_length operation <=? 0) then false
  else if OperationType_eqb (op_type operation) Insert
          && (JS.strlen (op_content operation) =? 0) then false
  else true.

(** [transformAgainstOperation] *)
Definition transformAgainstOperation (operation1 operation2 : Operation)
  : Operation :=
  match op_type operation1, op_type operation2 with
  | Insert, Insert =>
      if op_position operation1 <=? op_position operation2 then operation1
      else withPosition operation1
             (op_position operation1 + JS.strlen (op_content operation2))
  | Delete, Insert =>
      if op_position operation1 <=? op_position operation2 then operation1
      else withPosition operation1
             (op_position operation1 + JS.strlen (op_content operation2))
  | Insert, Delete =>
      if op_position operation1 <=? op_position operation2 then operation1
      else if op_position operation1
                >=? op_position operation2 + op_length operation2 then
        withPosition operation1
          (op_position operation1 - op_length operation2)
      else withPosition operation1 (op_position operation2)
  | _, _ => operation1
  end.

(** [getOperationsBetweenVersions] *)
Definition getOperationsBetweenVersions (entityType entityId : string)
    (fromVersion toVersion : Z) : list Operation :=
  [].

(** [transformOperation] *)
Definition transformOperation (operation : Operation)
    (fromVersion toVersion : Z) : Operation :=
  let ops :=
    getOperationsBetweenVersions (op_entityType operation)
      (op_entityId operation) fromVersion toVersion in
  fold_left transformAgainstOperation ops operation.

(** [applyOperation]: [true] when it returns, [false] when it rethrows.
    The version is written to Redis before the row is created. *)
Definition applyOperation (entityType entityId : string)
    (operation : Operation) (f : Faults) (st : Store) : Store * bool :=
  let key := versionKey entityType entityId in
  let currentVersion :=
    getCurrentVersion entityType entityId (applyGetFails f) st in
  if setFails f then (st, false)
  else
    let st1 :=
      mkStore (<[key := currentVersion + 1]> (redis st))
        (operationTable st) in
    if createFails f then (st1, false)
    else
      (mkStore (redis st1)
         (operationTable st1
            ++ [mkOperationRow entityType entityId (op_userId operation)
                  (op_type operation) operation (currentVersion + 1)]),
       true).

(** The handler of ['operation:send']. *)
Definition onOperationSend (data : OperationData) (f : Faults) (st : Store)
  : Store * list Emit :=
  if String.eqb (od_entityType data) "" || String.eqb (od_entityId data) ""
  then (st, [])
  else
    match od_operation data with
    | None => (st, [])
    | Some operation =>
        if negb (validateOperation operation) then
          (st,
           [ToSender (OperationError (op_id operation) "Invalid operation")])
        else
          let currentVersion :=
            getCurrentVersion (od_entityType data) (od_entityId data)
              (handlerGetFails f) st in
          let room := roomOf (od_entityType data) (od_entityId data) in
          let failed :=
            [ToSender
               (OperationError (op_id operation)
                  "Failed to process operation")] in
          if negb (od_version data =? currentVersion) then
            let transformedOperation :=
              transformOperation operation (od_version data)
                currentVersion in
            match applyOperation (od_entityType data) (od_entityId data)
                    transformedOperation f st with
            | (st', true) =>
                (st',
                 [ToRoom room
                    (OperationReceive (od_entityType data)
                       (od_entityId data) transformedOperation
                       (currentVersion + 1));
                  ToSender
                    (OperationAck (op_id operation) (currentVersion + 1))])
            | (st', false) => (st', failed)
            end
          else
            match applyOperation (od_entityType data) (od_entityId data)
                    operation f st with
            | (st', true) =>
                (st',
                 [ToRoom room
                    (OperationReceive (od_entityType data)
                       (od_entityId data) operation (od_version data + 1));
                  ToSender
                    (OperationAck (op_id operation) (od_version data + 1))])
            | (st', false) => (st', failed)
            end
    end.

(** Whether an emit reaches the room. *)
Definition isBroadcast (e : Emit) : bool :=
  match e with ToRoom _ _ => true | ToSender _ => false end.

(** Whether an emit is an error sent to the submitting socket. *)
Definition isSenderError (e : Emit) : bool :=
  match e with ToSender (OperationError _ _) => true | _ => false end.

End Gateway.

(** ** [PresenceService] *)

Module Presence.

Inductive PresenceStatus := Viewing | Editing | Idle.

(** [interface Presence]; [lastSeen] in milliseconds. *)
Record Presence := mkPresence {
  p_id : string;
  p_userId : string;
  p_entityType : string;
  p_entityId : string;
  p_status : PresenceStatus;
  p_cursorPosition : option (Z * Z);
  p_lastSeen : Z
}.

(** What the service emits with [io.to(room).emit]: ['presence:update']
    with the presence, or ['presence:remove'] with the three keys. *)
Inductive Event :=
| PresenceUpdate (presence : Presence)
| PresenceRemove (userId entityType entityId : string).

Record Emit := mkEmit { toRoom : string; event : Event }.

(** The [presences] map, in insertion order. *)
Abbreviation PresenceMap := (list (string * Presence)).

Definition presenceKey (userId entityType entityId : string) : string :=
  userId +:+ ":" +:+ entityType +:+ ":" +:+ entityId.

Definition roomOf (entityType entityId : string) : string :=
  entityType +:+ ":" +:+ entityId.

(** [Map.prototype.has] *)
Definition mapHas (k : string) (m : PresenceMap) : bool :=
  existsb (fun e => String.eqb (fst e) k) m.

(** [Map.prototype.set]: an existing key keeps its place, a new one goes
    last. *)
Fixpoint mapSet (k : string) (v : Presence) (m : PresenceMap) : PresenceMap :=
  match m with
  | [] => [(k, v)]
  | (k', v') :: rest =>
      if String.eqb k' k then (k, v) :: rest
      else (k', v') :: mapSet k v rest
  end.

(** [Map.prototype.delete] *)
Definition mapDelete (k : string) (m : PresenceMap) : PresenceMap :=
  List.filter (fun e => negb (String.eqb (fst e) k)) m.

(** [broadcastPresenceUpdate] *)
Definition broadcastPresenceUpdate (presence : Presence) : Emit :=
  mkEmit (roomOf (p_entityType presence) (p_entityId presence))
    (PresenceUpdate presence).

(** [broadcastPresenceRemoval] *)
Definition broadcastPresenceRemoval (userId entityType entityId : string)
  : Emit :=
  mkEmit (roomOf entityType entityId)
    (PresenceRemove userId entityType entityId).

(** [updatePresence] at time [now]. [dbOk] tells, for a presence key,
    whether the database call made for it succeeds; when the upsert
    throws, the map is already updated and nothing is broadcast. The
    boolean of the result is [false] when the method throws. *)
Definition updatePresence (now : Z) (dbOk : string -> bool)
    (userId entityType entityId : string) (status : PresenceStatus)
    (cursorPosition : option (Z * Z)) (m : PresenceMap)
  : PresenceMap * list Emit * bool :=
  let presenceKey := presenceKey userId entityType entityId in
  let presence :=
    mkPresence presenceKey userId entityType entityId status
      cursorPosition now in
  let m' := mapSet presenceKey presence m in
  if dbOk presenceKey then (m', [broadcastPresenceUpdate presence], true)
  else (m', [], false).

(** [removePresence], the explicit leave: the entry is deleted, then the
    database row, then the removal is broadcast. *)
Definition removePresence (dbOk : string -> bool)
    (userId entityType entityId : string) (m : PresenceMap)
  : PresenceMap * list Emit * bool :=
  let presenceKey := presenceKey userId entityType entityId in
  let m' := mapDelete presenceKey m in
  if dbOk presenceKey then
    (m', [broadcastPresenceRemoval userId entityType entityId], true)
  else (m', [], false).

Definition inactiveThreshold : Z := 5 * 60 * 1000.

(** The loop of [cleanupInactivePresences] over the entries of the map.
    The iterator of a [Map] is live: [todo] are the entries it has yet to
    reach, and one that the body has deleted meanwhile is not visited.
    A throw of [removePresence] ends the loop. *)
Fixpoint cleanupLoop (now : Z) (dbOk : string -> bool)
    (todo : PresenceMap) (m : PresenceMap)
  : PresenceMap * list Emit * bool :=
  match todo with
  | [] => (m, [], true)
  | (key, presence) :: rest =>
      if negb (mapHas key m) then cleanupLoop now dbOk rest m
      else if now - p_lastSeen presence >? inactiveThreshold then
        let m1 := mapDelete key m in
        match removePresence dbOk (p_userId presence)
                (p_entityType presence) (p_entityId presence) m1 with
        | (m2, emitted, true) =>
            match cleanupLoop now dbOk rest m2 with
            | (m3, emitted', r) => (m3, emitted ++ emitted', r)
            end
        | (m2, emitted, false) => (m2, emitted, false)
        end
      else cleanupLoop now dbOk rest m
  end.

(** [cleanupInactivePresences], one run of the sweep at time [now]. *)
Definition cleanupInactivePresences (now : Z) (dbOk : string -> bool)
    (m : PresenceMap) : PresenceMap * list Emit * bool :=
  cleanupLoop now dbOk m m.

(** The maps the service builds: every entry sits under the key of its
    own three fields, and no key occurs twice. *)
Definition wellKeyed (m : PresenceMap) : Prop :=
  NoDup (map fst m)
  /\ Forall
       (fun e =>
          fst e
          = presenceKey (p_userId (snd e)) (p_entityType (snd e))
              (p_entityId (snd e)))
       m.

(** An entry the sweep at [now] finds inactive. *)
Definition inactiveAt (now : Z) (presence : Presence) : Prop :=
  now - p_lastSeen presence > inactiveThreshold.

End Presence.

(** ** [getUserColor] ([socketHandler.ts]) *)

Module Color.

Definition colors : list string :=
  ["#FF6B6B"; "#4ECDC4"; "#45B7D1"; "#96CEB4";
   "#FFEAA7"; "#DDA0DD"; "#98D8C8"; "#F7DC6F";
   "#BB8FCE"; "#85C1E2"; "#F8B739"; "#52C777";
   "#EC7063"; "#5DADE2"; "#48C9B0"; "#F5B041"].

(** The conversion of a number to a signed 32-bit integer that the bitwise
    operators of JavaScript make of their operands and of their result. *)
Definition toInt32 (x : Z) : Z := (x + 2 ^ 31) mod 2 ^ 32 - 2 ^ 31.

(** [hash << 5] *)
Definition shiftLeft5 (hash : Z) : Z := toInt32 (Z.shiftl (toInt32 hash) 5).

(** [userId.charCodeAt(i)], for a user id of ASCII characters. *)
Definition charCode (c : ascii) : Z := Z.of_N (N_of_ascii c).

(** One turn of the loop: [hash = charCode + ((hash << 5) - hash)]. The
    subtraction and the addition are those of numbers, not of 32-bit
    integers. *)
Definition step (hash : Z) (c : ascii) : Z :=
  charCode c + (shiftLeft5 hash - hash).

(** The value of [hash] after the loop. *)
Definition hashOf (userId : string) : Z :=
  fold_left step (String.list_ascii_of_string userId) 0.

(** [getUserColor]: [None] stands for the [undefined] an index outside
    [colors] would give. *)
Definition getUserColor (userId : string) : option string :=
  colors !! Z.to_nat (Z.abs (hashOf userId) mod Z.of_nat (List.length colors)).

End Color.

(** ** The connection handlers of the gateway ([socketHandler.ts]) *)

Module Conn.

(** The user the authentication middleware attaches to the socket: the
    fields it selects that the handlers read. It does not select
    [avatarUrl], so [user.avatarUrl] is [undefined] in the handlers. *)
Record User := mkUser {
  u_id : string;
  u_email : string;
  u_firstName : string;
  u_lastName : string
}.

(** A socket: its user, the list [socket.data.rooms] and the rooms
    socket.io has it in. *)
Record Socket := mkSocket {
  user : User;
  rooms : list string;
  joined : gset string
}.

(** The presence data [updatePresence] stores and ['presence:update']
    broadcasts. *)
Record PresenceData := mkPresenceData {
  pd_userId : string;
  pd_userName : string;
  pd_userAvatar : option string;
  pd_entityType : string;
  pd_entityId : string;
  pd_status : string;
  pd_cursorPosition : option (Z * Z);
  pd_lastSeen : Z;
  pd_color : option string
}.

(** What the handlers send with [socket.to(room).emit], to the other
    members of the room. *)
Inductive Notice :=
| UserJoinedWorkspace (userId email firstName lastName : string)
| UserLeftWorkspace (userId : string)
| UserDisconnected (userId : string)
| PresenceUpdated (data : PresenceData).

Record Emit := mkEmit { toRoom : string; notice : Notice }.

(** The sessions [cacheUtils] keeps in Redis: the data and the time to
    live, in seconds, under the key. *)
Abbreviation Sessions := (gmap string (PresenceData * Z)).

Definition userRoom (userId : string) : string := "user:" +:+ userId.

Definition workspaceRoom (workspaceId : string) : string :=
  "workspace:" +:+ workspaceId.

Definition entityRoom (entityType entityId : string) : string :=
  entityType +:+ ":" +:+ entityId.

(** [`presence:${entityType}:${entityId}:${user.id}`] *)
Definition presenceKey (entityType entityId userId : string) : string :=
  "presence:" +:+ entityType +:+ ":" +:+ entityId +:+ ":" +:+ userId.

(** The key [cacheUserSession] and [deleteUserSession] make of their
    argument. *)
Definition sessionKey (userId : string) : string := "session:" +:+ userId.

(** The socket after the connection handler has run. *)
Definition connect (u : User) : Socket :=
  mkSocket u [userRoom (u_id u)] {[ userRoom (u_id u) ]}.

(** [rooms.indexOf(room)] followed by [rooms.splice(index, 1)] when the
    room is found: the first occurrence goes. *)
Fixpoint removeFirst (room : string) (rooms : list string) : list string :=
  match rooms with
  | [] => []
  | r :: rest => if String.eqb r room then rest else r :: removeFirst room rest
  end.

(** The handler of ['join:workspace']. *)
Definition joinWorkspace (workspaceId : string) (s : Socket)
  : Socket * list Emit :=
  if String.eqb workspaceId "" then (s, [])
  else
    let room := workspaceRoom workspaceId in
    (mkSocket (user s) (rooms s ++ [room]) ({[ room ]} ∪ joined s),
     [mkEmit room
        (UserJoinedWorkspace (u_id (user s)) (u_email (user s))
           (u_firstName (user s)) (u_lastName (user s)))]).

(** The handler of ['leave:workspace']. *)
Definition leaveWorkspace (workspaceId : string) (s : Socket)
  : Socket * list Emit :=
  if String.eqb workspaceId "" then (s, [])
  else
    let room := workspaceRoom workspaceId in
    (mkSocket (user s) (removeFirst room (rooms s)) (joined s ∖ {[ room ]}),
     [mkEmit room (UserLeftWorkspace (u_id (user s)))]).

(** [updatePresence]: a throw of the Redis write is caught and logged, and
    leaves the sessions as they were. *)
Definition updatePresence (now : Z) (redisOk : bool) (s : Socket)
    (entityType entityId status : string)
    (cursorPosition : option (Z * Z)) (sessions : Sessions) : Sessions :=
  let u := user s in
  let key := presenceKey entityType entityId (u_id u) in
  let presenceData :=
    mkPresenceData (u_id u) (u_firstName u +:+ " " +:+ u_lastName u)
      None entityType entityId status cursorPosition now
      (Color.getUserColor (u_id u)) in
  if redisOk then <[sessionKey key := (presenceData, 300)]> sessions
  else sessions.

(** [removePresence] *)
Definition removePresence (redisOk : bool) (s : Socket)
    (entityType entityId : string) (sessions : Sessions) : Sessions :=
  let key := presenceKey entityType entityId (u_id (user s)) in
  if redisOk then delete (sessionKey key) sessions else sessions.

(** [cleanupPresence] with [invalidateCachePattern]: the keys Redis finds
    for the pattern are deleted. [glob] is the matching of [KEYS], which
    belongs to Redis. *)
Definition cleanupPresence (glob : string -> string -> bool)
    (redisOk : bool) (s : Socket) (sessions : Sessions) : Sessions :=
  let pattern := "presence:*:" +:+ u_id (user s) in
  if redisOk then
    filter (fun entry => glob pattern (fst entry) = false) sessions
  else sessions.

(** The handler of ['join:entity']. *)
Definition joinEntity (now : Z) (redisOk : bool)
    (entityType entityId : string) (s : Socket) (sessions : Sessions)
  : Socket * Sessions * list Emit :=
  if String.eqb entityType "" || String.eqb entityId "" then (s, sessions, [])
  else
    let room := entityRoom entityType entityId in
    let s' := mkSocket (user s) (rooms s ++ [room]) ({[ room ]} ∪ joined s) in
    (s', updatePresence now redisOk s' entityType entityId "viewing" None
           sessions, []).

(** The handler of ['leave:entity']. *)
Definition leaveEntity (redisOk : bool) (entityType entityId : string)
    (s : Socket) (sessions : Sessions) : Socket * Sessions * list Emit :=
  if String.eqb entityType "" || String.eqb entityId "" then (s, sessions, [])
  else
    let room := entityRoom entityType entityId in
    let s' :=
      mkSocket (user s) (removeFirst room (rooms s)) (joined s ∖ {[ room ]}) in
    (s', removePresence redisOk s' entityType entityId sessions, []).

(** The handler of ['presence:update']. *)
Definition presenceUpdate (now : Z) (redisOk : bool)
    (entityType entityId status : string)
    (cursorPosition : option (Z * Z)) (s : Socket) (sessions : Sessions)
  : Socket * Sessions * list Emit :=
  if String.eqb entityType "" || String.eqb entityId "" then (s, sessions, [])
  else
    let u := user s in
    (s,
     updatePresence now redisOk s entityType entityId status cursorPosition
       sessions,
     [mkEmit (entityRoom entityType entityId)
        (PresenceUpdated
           (mkPresenceData (u_id u) (u_firstName u +:+ " " +:+ u_lastName u)
              None entityType entityId status cursorPosition now
              (Color.getUserColor (u_id u))))]).

(** The handler of ['disconnect']. *)
Definition disconnect (glob : string -> string -> bool) (redisOk : bool)
    (s : Socket) (sessions : Sessions) : Sessions * list Emit :=
  (cleanupPresence glob redisOk s sessions,
   map (fun room => mkEmit room (UserDisconnected (u_id (user s))))
     (rooms s)).

(** What a client can send on an open connection. *)
Inductive Request :=
| JoinWorkspace (workspaceId : string)
| LeaveWorkspace (workspaceId : string)
| JoinEntity (entityType entityId : string)
| LeaveEntity (entityType entityId : string)
| PresenceUpdate (entityType entityId status : string)
    (cursorPosition : option (Z * Z)).

(** The handler of one request, at a time [now], with the outcome of the
    Redis call it makes. *)
Definition handle (now : Z) (redisOk : bool) (request : Request)
    (s : Socket) (sessions : Sessions) : Socket * Sessions * list Emit :=
  match request with
  | JoinWorkspace w =>
      let (s', emitted) := joinWorkspace w s in (s', sessions, emitted)
  | LeaveWorkspace w =>
      let (s', emitted) := leaveWorkspace w s in (s', sessions, emitted)
  | JoinEntity t e => joinEntity now redisOk t e s sessions
  | LeaveEntity t e => leaveEntity redisOk t e s sessions
  | PresenceUpdate t e status cursor =>
      presenceUpdate now redisOk t e status cursor s sessions
  end.

(** The requests of a connection, handled one after the other. *)
Fixpoint handleAll (requests : list (Z * bool * Request)) (s : Socket)
    (sessions : Sessions) : Socket * Sessions * list Emit :=
  match requests with
  | [] => (s, sessions, [])
  | (now, redisOk, request) :: rest =>
      match handle now redisOk request s sessions with
      | (s1, sessions1, emitted) =>
          match handleAll rest s1 sessions1 with
          | (s2, sessions2, emitted') => (s2, sessions2, emitted ++ emitted')
          end
      end
  end.

(** A matching for the patterns whose only special character is [*],
    which stands for any run of characters. *)
Fixpoint starGlob (pattern key : string) : bool :=
  match pattern with
  | EmptyString => match key with EmptyString => true | _ => false end
  | String c pattern' =>
      if Ascii.eqb c "*" then
        (fix star (k : string) : bool :=
           starGlob pattern' k
           || match k with
              | EmptyString => false
              | String _ k' => star k'
              end) key
      else
        match key with
        | EmptyString => false
        | String d key' => Ascii.eqb c d && starGlob pattern' key'
        end
  end.

End Conn.

(** ** The socket handlers of the guide and the queries of
    [PresenceService] *)

Module Guide.

(** What the ['operation:send'] handler of the guide emits. *)
Inductive Payload :=
| OperationReceive (operation : Operation) (version : Z)
| OperationAck (operationId : string) (version : Z)
| OperationError (operationId : string) (error : string).

Inductive Emit :=
| ToSender (p : Payload)
| ToRoom (room : string) (p : Payload).

(** The handler of ['operation:send']: the result of [applyOperation] goes
    to the room and the acknowledgement to the sender, the message of a
    throw to the sender alone. *)
Definition onOperationSend (entityType entityId : string)
    (operation : Operation) (persistFails : bool) (s : OT.Service)
  : OT.Service * list Emit :=
  match OT.applyOperation entityId operation persistFails s with
  | (s', OT.Returned result) =>
      (s',
       [ToRoom (entityType +:+ ":" +:+ entityId)
          (OperationReceive (OT.tr_operation result) (OT.tr_version result));
        ToSender (OperationAck (op_id operation) (OT.tr_version result))])
  | (s', OT.Thrown message) =>
      (s', [ToSender (OperationError (op_id operation) message)])
  end.

(** [getEntityPresences] *)
Definition getEntityPresences (entityType entityId : string)
    (m : Presence.PresenceMap) : list Presence.Presence :=
  List.filter
    (fun presence =>
       String.eqb (Presence.p_entityType presence) entityType
       && String.eqb (Presence.p_entityId presence) entityId)
    (map snd m).

(** [getUserPresences] *)
Definition getUserPresences (userId : string) (m : Presence.PresenceMap)
  : list Presence.Presence :=
  List.filter (fun presence => String.eqb (Presence.p_userId presence) userId)
    (map snd m).

(** The [forEach] of the disconnect handler over presences found
    beforehand: each [removePresence] deletes its entry at once; its
    broadcast follows the database call, so the order of the broadcasts
    is that of the list only if the database answers in order. A throw of
    one call does not stop the others. *)
Fixpoint removeEach (dbOk : string -> bool) (userId : string)
    (found : list Presence.Presence) (m : Presence.PresenceMap)
  : Presence.PresenceMap * list Presence.Emit :=
  match found with
  | [] => (m, [])
  | presence :: rest =>
      match Presence.removePresence dbOk userId
              (Presence.p_entityType presence) (Presence.p_entityId presence)
              m with
      | (m1, emitted, _) =>
          match removeEach dbOk userId rest m1 with
          | (m2, emitted') => (m2, emitted ++ emitted')
          end
      end
  end.

(** The handler of ['disconnect']. *)
Definition onDisconnect (dbOk : string -> bool) (userId : string)
    (m : Presence.PresenceMap) : Presence.PresenceMap * list Presence.Emit :=
  removeEach dbOk userId (getUserPresences userId m) m.

End Guide.

(** ** [OTClient] *)

Module Client.

(** The client of one entity: its fields and what it has sent to the
    server, oldest first. The content is [None] when it is [undefined]. *)
Record OTClient := mkClient {
  entityId : string;
  entityType : string;
  localOperations : list Operation;
  awaitingAck : gmap string Operation;
  currentContent : option (list ascii);
  version : Z;
  sent : list Gateway.OperationData
}.

(** The constructor. *)
Definition create (entityId entityType : string)
    (initialContent : list ascii) : OTClient :=
  mkClient entityId entityType [] ∅ (Some initialContent) 0 [].

(** [applyOperation] of the client as the guide has it: a signature and a
    comment, no body, so a call returns [undefined]. *)
Definition applyOperationAsWritten (content : option (list ascii))
    (operation : Operation) : option (list ascii) :=
  None.

Section Methods.

(** The guide says of [applyOperation] that it is to be as
    [applyToContent] of the server; [applyLocalOperation] is modelled for
    any method in its place, [applyOperationAsWritten] among them. *)
Variable applyOperation :
  option (list ascii) -> Operation -> option (list ascii).

(** [applyLocalOperation] with [sendOperation]. *)
Definition applyLocalOperation (operation : Operation) (c : OTClient)
  : OTClient :=
  mkClient (entityId c) (entityType c)
    (localOperations c ++ [operation])
    (<[op_id operation := operation]> (awaitingAck c))
    (applyOperation (currentContent c) operation)
    (version c)
    (sent c
       ++ [Gateway.mkOperationData (entityType c) (entityId c)
             (Some operation) (version c)]).

End Methods.

(** [findIndex] on the id followed by [splice(index, 1)] when found. *)
Fixpoint removeFirstWithId (operationId : string) (ops : list Operation)
  : list Operation :=
  match ops with
  | [] => []
  | op :: rest =>
      if String.eqb (op_id op) operationId then rest
      else op :: removeFirstWithId operationId rest
  end.

(** [handleOperationAck] *)
Definition handleOperationAck (operationId : string) (c : OTClient)
  : OTClient :=
  match awaitingAck c !! operationId with
  | Some _ =>
      mkClient (entityId c) (entityType c)
        (removeFirstWithId operationId (localOperations c))
        (delete operationId (awaitingAck c))
        (currentContent c) (version c) (sent c)
  | None => c
  end.

End Client.

(** ** The presence lists of the interface *)

Module PresenceUI.

(** The test of [handlePresenceUpdate] of [usePresence]: same user, same
    entity type, same entity. *)
Definition sameTriple (p q : Presence.Presence) : bool :=
  String.eqb (Presence.p_userId p) (Presence.p_userId q)
  && String.eqb (Presence.p_entityType p) (Presence.p_entityType q)
  && String.eqb (Presence.p_entityId p) (Presence.p_entityId q).

(** [handlePresenceUpdate] of [usePresence] *)
Definition handlePresenceUpdate (prev : list Presence.Presence)
    (presence : Presence.Presence) : list Presence.Presence :=
  List.filter (fun p => negb (sameTriple p presence)) prev ++ [presence].

(** [handlePresenceRemove] of [usePresence]: of the data of the event only
    the user id is read. *)
Definition handlePresenceRemove (prev : list Presence.Presence)
    (userId : string) : list Presence.Presence :=
  List.filter (fun p => negb (String.eqb (Presence.p_userId p) userId)) prev.

(** What reaches the list of [usePresence]. *)
Inductive Event :=
| Updated (presence : Presence.Presence)
| Removed (userId : string).

Definition reduce (prev : list Presence.Presence) (event : Event)
  : list Presence.Presence :=
  match event with
  | Updated presence => handlePresenceUpdate prev presence
  | Removed userId => handlePresenceRemove prev userId
  end.

(** [interface UserPresence] of [PresenceIndicator.tsx]. *)
Record UserPresence := mkUserPresence {
  up_data : Conn.PresenceData;
  up_isOnline : bool;
  up_lastSeenRelative : string
}.

Definition up_userId (p : UserPresence) : string :=
  Conn.pd_userId (up_data p).

(** [handlePresenceUpdated] of [PresenceIndicator]: the entry of the user
    is replaced where it is, or the new one added last. *)
Fixpoint handlePresenceUpdated (prev : list UserPresence)
    (data : Conn.PresenceData) : list UserPresence :=
  match prev with
  | [] => [mkUserPresence data true "now"]
  | p :: rest =>
      if String.eqb (up_userId p) (Conn.pd_userId data)
      then mkUserPresence data true "now" :: rest
      else p :: handlePresenceUpdated rest data
  end.

(** [handleUserDisconnected] of [PresenceIndicator]; [relative] is what
    [formatRelativeTime] gives for the time of the event. *)
Definition handleUserDisconnected (relative : string)
    (prev : list UserPresence) (userId : string) : list UserPresence :=
  map
    (fun p =>
       if String.eqb (up_userId p) userId
       then mkUserPresence (up_data p) false relative
       else p)
    prev.

(** What reaches the list of [PresenceIndicator]. *)
Inductive IndicatorEvent :=
| PresenceUpdated (data : Conn.PresenceData)
| UserDisconnected (relative : string) (userId : string).

Definition reduceIndicator (prev : list UserPresence)
    (event : IndicatorEvent) : list UserPresence :=
  match event with
  | PresenceUpdated data => handlePresenceUpdated prev data
  | UserDisconnected relative userId =>
      handleUserDisconnected relative prev userId
  end.

End PresenceUI.

(** ** Notions the properties are stated with *)

(** The length of the overlap of the ranges two deletes remove. *)
Definition overlapLength (op1 op2 : Operation) : Z :=
  Z.max 0
    (Z.min (op_position op1 + op_length op1) (op_position op2 + op_length op2)
     - Z.max (op_position op1) (op_position op2)).

(** The invariant of a document: its version is the number of operations
    it holds. *)
Definition versionIsLength (s : OT.Service) : Prop :=
  forall (entityId : string) (d : OT.DocumentState),
    OT.documentStates s !! entityId = Some d ->
    OT.version d = Z.of_nat (List.length (OT.operations d)).

(** An operation the content can take: an insert inside the content, a
    delete of a non-empty range of it. *)
Definition validIn (base : list ascii) (op : Operation) : bool :=
  match op_type op with
  | Insert => (0 <=? op_position op) && (op_position op <=? JS.strlen base)
  | Delete =>
      (0 <=? op_position op) && (0 <? op_length op)
        && (op_position op + op_length op <=? JS.strlen base)
  | _ => true
  end.

(** Two operations on one base that do not meet in one of three ways: two
    inserts at one position, an insert strictly inside the range of a
    delete, two deletes whose ranges overlap without one holding the
    other. *)
Definition conflictFree (X Y : Operation) : bool :=
  let endX := op_position X + op_length X in
  let endY := op_position Y + op_length Y in
  match op_type X, op_type Y with
  | Insert, Insert => negb (op_position X =? op_position Y)
  | Insert, Delete =>
      (op_position X <=? op_position Y) || (endY <=? op_position X)
  | Delete, Insert =>
      (op_position Y <=? op_position X) || (endX <=? op_position Y)
  | Delete, Delete =>
      (endX <=? op_position Y) || (endY <=? op_position X)
        || ((op_position X <=? op_position Y) && (endY <=? endX))
        || ((op_position Y <=? op_position X) && (endX <=? endY))
  | _, _ => true
  end.

(** The fields of an operation that the transforms leave alone: all but
    the position and the length. *)
Definition sameEdit (a b : Operation) : Prop :=
  op_id a = op_id b /\ op_type a = op_type b
  /\ op_content a = op_content b /\ op_attributes a = op_attributes b
  /\ op_userId a = op_userId b /\ op_timestamp a = op_timestamp b
  /\ op_sequenceNumber a = op_sequenceNumber b
  /\ op_entityType a = op_entityType b /\ op_entityId a = op_entityId b.

(** The content a list of operations gives when applied in order. *)
Definition replay (initial : list ascii) (ops : list Operation) : list ascii :=
  fold_left OT.applyToContent ops initial.

(** A run of submissions to the gateway, each with the faults it meets:
    the store after the last and what was emitted, in order. *)
Fixpoint submitAll (requests : list (Gateway.OperationData * Gateway.Faults))
    (st : Gateway.Store) : Gateway.Store * list Gateway.Emit :=
  match requests with
  | [] => (st, [])
  | (data, f) :: rest =>
      let (st1, emitted) := Gateway.onOperationSend data f st in
      let (st2, emitted') := submitAll rest st1 in
      (st2, emitted ++ emitted')
  end.

(** A row that holds a valid operation under its own author and type. *)
Definition rowOk (row : Gateway.OperationRow) : Prop :=
  Gateway.validateOperation (Gateway.row_operationData row) = true
  /\ Gateway.row_userId row = op_userId (Gateway.row_operationData row)
  /\ Gateway.row_operationType row
     = op_type (Gateway.row_operationData row).

(** Whether a presence is that of a user on an entity. *)
Definition isPresenceOf (userId entityType entityId : string)
    (p : Presence.Presence) : bool :=
  String.eqb (Presence.p_userId p) userId
  && String.eqb (Presence.p_entityType p) entityType
  && String.eqb (Presence.p_entityId p) entityId.

(** An error that names a version mismatch, sent to the submitting
    socket. *)
Definition isVersionMismatch (e : Gateway.Emit) : bool :=
  match e with
  | Gateway.ToSender (Gateway.OperationError _ error) =>
      String.eqb error "VersionMismatch"
  | _ => false
  end.

(** What the list of [usePresence] tells presences apart by. *)
Definition tripleOf (p : Presence.Presence) : string * string * string :=
  (Presence.p_userId p, Presence.p_entityType p, Presence.p_entityId p).

(** * Properties *)

(** Case analysis on the integer comparisons of a goal. *)
Ltac zcases :=
  rewrite ?Z.geb_leb, ?Z.gtb_ltb;
  repeat match goal with
    | |- context [?a <=? ?b] => destruct (Z.leb_spec a b)
    | |- context [?a <? ?b] => destruct (Z.ltb_spec a b)
    | |- context [?a =? ?b] => destruct (Z.eqb_spec a b)
    end;
  simpl andb; simpl negb; cbv iota.

(** Lists equal up to the bracketing of [++]. *)
Ltac assoc := repeat rewrite <- app_assoc; reflexivity.

(** Arithmetic on the lengths of concatenations. *)
Ltac lens :=
  unfold JS.strlen in *;
  repeat match goal with
    | H : context [List.length (_ ++ _)] |- _ => rewrite length_app in H
    end;
  rewrite ?length_app; simpl; lia.

Ltac side := first [assumption | assoc | lens].

(** A boolean hypothesis on integer comparisons, as a proposition. *)
Ltac boolprops H :=
  repeat first
    [ rewrite orb_true_iff in H | rewrite andb_true_iff in H
    | rewrite negb_true_iff in H | rewrite Z.leb_le in H
    | rewrite Z.ltb_lt in H | rewrite Z.eqb_neq in H ].

(** ** Slicing with indices that are not negative *)

Lemma relIndex_nonneg (len i : Z) :
  0 <= len -> 0 <= i -> JS.relIndex len i = Z.min i len.
Proof.
  intros Hlen Hi. unfold JS.relIndex.
  destruct (Z.ltb_spec i 0); [lia | reflexivity].
Qed.

(** [s.slice(0, p)] is the first [p] code units. *)
Lemma slice_prefix (s : list ascii) (p : Z) :
  0 <= p -> JS.slice s 0 p = take (Z.to_nat p) s.
Proof.
  intros Hp. unfold JS.slice.
  rewrite !relIndex_nonneg by lia.
  rewrite (Z.min_l 0) by lia. rewrite Z.sub_0_r.
  change (Z.to_nat 0) with 0%nat. rewrite drop_0.
  destruct (Z.le_gt_cases p (Z.of_nat (List.length s))) as [Hle | Hgt].
  - rewrite Z.min_l by lia. reflexivity.
  - rewrite Z.min_r by lia. rewrite Nat2Z.id.
    rewrite firstn_all. symmetry. apply take_ge. lia.
Qed.

(** [s.slice(p)] is what follows the first [p] code units. *)
Lemma sliceFrom_suffix (s : list ascii) (p : Z) :
  0 <= p -> JS.sliceFrom s p = drop (Z.to_nat p) s.
Proof.
  intros Hp. unfold JS.sliceFrom, JS.slice.
  rewrite !relIndex_nonneg by lia.
  rewrite (Z.min_l (Z.of_nat (List.length s))) by lia.
  rewrite take_ge by (rewrite length_drop; lia).
  destruct (Z.le_gt_cases p (Z.of_nat (List.length s))) as [Hle | Hgt].
  - rewrite Z.min_l by lia. reflexivity.
  - rewrite Z.min_r by lia. rewrite Nat2Z.id.
    rewrite skipn_all. symmetry. apply drop_ge. lia.
Qed.

(** An insert at a position inside the content splices its text there. *)
Lemma applyToContent_insert (c : list ascii) (op : Operation) :
  op_type op = Insert -> 0 <= op_position op ->
  OT.applyToContent c op
  = take (Z.to_nat (op_position op)) c ++ op_content op
      ++ drop (Z.to_nat (op_position op)) c.
Proof.
  intros Ht Hp. unfold OT.applyToContent. rewrite Ht.
  rewrite slice_prefix, sliceFrom_suffix by lia. reflexivity.
Qed.

(** A delete with a position and a length that are not negative removes
    that range. *)
Lemma applyToContent_delete (c : list ascii) (op : Operation) :
  op_type op = Delete -> 0 <= op_position op -> 0 <= op_length op ->
  OT.applyToContent c op
  = take (Z.to_nat (op_position op)) c
      ++ drop (Z.to_nat (op_position op + op_length op)) c.
Proof.
  intros Ht Hp Hl. unfold OT.applyToContent. rewrite Ht.
  rewrite slice_prefix, sliceFrom_suffix by lia. reflexivity.
Qed.

(** A delete of length zero leaves the content as it is. *)
Lemma applyToContent_delete_zero (c : list ascii) (op : Operation) :
  op_type op = Delete -> 0 <= op_position op -> op_length op = 0 ->
  OT.applyToContent c op = c.
Proof.
  intros Ht Hp Hl. rewrite applyToContent_delete by (assumption || lia).
  rewrite Hl, Z.add_0_r. apply take_drop.
Qed.

(** ** The pairwise transform *)

(** [transformDeleteInsert], first branch: a delete that ends at or before
    the insertion point is returned as it is. *)
Lemma transformDeleteInsert_before (op1 op2 : Operation) :
  op_position op1 + op_length op1 <= op_position op2 ->
  OT.transformDeleteInsert op1 op2 = op1.
Proof.
  intros H. unfold OT.transformDeleteInsert. zcases; try reflexivity; lia.
Qed.

(** [transformDeleteInsert], second branch: a delete of positive length
    that starts at or after the insertion point moves right by the length
    of the inserted text. *)
Lemma transformDeleteInsert_after (op1 op2 : Operation) :
  0 < op_length op1 -> op_position op1 >= op_position op2 ->
  OT.transformDeleteInsert op1 op2
  = withPosition op1 (op_position op1 + JS.strlen (op_content op2)).
Proof.
  intros Hl H. unfold OT.transformDeleteInsert. zcases; try reflexivity; lia.
Qed.

(** [transformDeleteInsert], last branch: with the insertion point strictly
    inside the deleted range, the length becomes the difference of the two
    positions, which is negative. *)
Lemma transformDeleteInsert_inside (op1 op2 : Operation) :
  op_position op1 < op_position op2 ->
  op_position op2 < op_position op1 + op_length op1 ->
  OT.transformDeleteInsert op1 op2
  = withLength op1 (op_position op1 - op_position op2)
  /\ op_position op1 - op_position op2 < 0.
Proof.
  intros H1 H2. unfold OT.transformDeleteInsert.
  zcases; try lia; split; (reflexivity || lia).
Qed.

(** The gateway returns a delete at the insertion point as it is. *)
Lemma transformAgainstOperation_delete_at_insert (op1 op2 : Operation) :
  op_type op1 = Delete -> op_type op2 = Insert ->
  op_position op1 = op_position op2 ->
  Gateway.transformAgainstOperation op1 op2 = op1.
Proof.
  intros H1 H2 H. unfold Gateway.transformAgainstOperation.
  rewrite H1, H2. zcases; try reflexivity; lia.
Qed.

(** [transformDeleteDelete] takes the overlap of the two ranges off the
    length, whatever the branch. *)
Lemma transformDeleteDelete_length (op1 op2 : Operation) :
  0 <= op_length op1 -> 0 <= op_length op2 ->
  op_length (OT.transformDeleteDelete op1 op2)
  = op_length op1 - overlapLength op1 op2.
Proof.
  intros H1 H2. unfold OT.transformDeleteDelete, overlapLength.
  zcases; simpl; lia.
Qed.

(** [transformDeleteDelete] moves the position only in its second branch,
    when the other delete ends at or before the start of this one. *)
Lemma transformDeleteDelete_position (op1 op2 : Operation) :
  op_position (OT.transformDeleteDelete op1 op2)
  = if (op_position op2 <? op_position op1 + op_length op1)
       && (op_position op2 + op_length op2 <=? op_position op1)
    then op_position op1 - op_length op2
    else op_position op1.
Proof.
  unfold OT.transformDeleteDelete. zcases; simpl; try reflexivity; lia.
Qed.

(** A delete whose range lies within the range of the other becomes a
    delete of length zero. *)
Lemma transformDeleteDelete_contained (op1 op2 : Operation) :
  0 < op_length op1 ->
  op_position op2 <= op_position op1 ->
  op_position op1 + op_length op1 <= op_position op2 + op_length op2 ->
  op_length (OT.transformDeleteDelete op1 op2) = 0.
Proof.
  intros H0 H1 H2. unfold OT.transformDeleteDelete. zcases; simpl; lia.
Qed.

(** Scenario B: on ["abcdef"], after A = delete(1, 3) has given ["aef"],
    B = delete(2, 2) transforms to length 0 and leaves ["aef"]. *)
Lemma scenario_B :
  let A := mkDelete "a" 1 3 "alice" 10 in
  let B := mkDelete "b" 2 2 "bob" 20 in
  OT.applyToContent (JS.chars "abcdef") A = JS.chars "aef"
  /\ op_length (OT.transform B A) = 0
  /\ OT.applyToContent (JS.chars "aef") (OT.transform B A) = JS.chars "aef".
Proof. repeat split. Qed.

(** *** Where the transform converges *)

Lemma split_at (l : list ascii) (n : Z) :
  0 <= n <= JS.strlen l ->
  exists l1 l2, l = l1 ++ l2 /\ Z.of_nat (List.length l1) = n.
Proof.
  intros Hn. unfold JS.strlen in Hn.
  exists (take (Z.to_nat n) l), (drop (Z.to_nat n) l).
  split; [symmetry; apply take_drop | rewrite length_take; lia].
Qed.

(** An insert at the boundary of two parts of the content puts its text
    between them. *)
Lemma insert_at_boundary (c l k : list ascii) (op : Operation) :
  c = l ++ k -> op_type op = Insert ->
  op_position op = Z.of_nat (List.length l) ->
  OT.applyToContent c op = l ++ op_content op ++ k.
Proof.
  intros -> Ht Hp. rewrite applyToContent_insert by (assumption || lia).
  rewrite Hp, Nat2Z.id, take_app_length, drop_app_length. reflexivity.
Qed.

(** A delete of a part of the content that starts at a boundary removes
    that part. *)
Lemma delete_at_boundary (c l d k : list ascii) (op : Operation) :
  c = l ++ d ++ k -> op_type op = Delete ->
  op_position op = Z.of_nat (List.length l) ->
  op_length op = Z.of_nat (List.length d) ->
  OT.applyToContent c op = l ++ k.
Proof.
  intros -> Ht Hp Hl. rewrite applyToContent_delete by (assumption || lia).
  rewrite Hp, Hl, <- Nat2Z.inj_add, !Nat2Z.id, take_app_length.
  rewrite app_assoc, <- length_app, drop_app_length. reflexivity.
Qed.

(** Two inserts, the first at the smaller position. *)
Lemma converge_insert_insert_lt (base : list ascii) (X Y : Operation) :
  op_type X = Insert -> op_type Y = Insert ->
  0 <= op_position X -> op_position X < op_position Y ->
  op_position Y <= JS.strlen base ->
  OT.applyToContent (OT.applyToContent base X) (OT.transform Y X)
  = OT.applyToContent (OT.applyToContent base Y) (OT.transform X Y).
Proof.
  intros HX HY H0 Hlt Hle.
  destruct (split_at base (op_position X)) as (b1 & r & -> & Hb1);
    [lia |].
  destruct (split_at r (op_position Y - op_position X)) as (b2 & b3 & -> & Hb2).
  { unfold JS.strlen in *. rewrite length_app in Hle. lia. }
  assert (HYX : OT.transform Y X
                = withPosition Y (op_position Y + JS.strlen (op_content X))).
  { unfold OT.transform, OT.transformInsertInsert. rewrite HX, HY.
    zcases; try reflexivity; lia. }
  assert (HXY : OT.transform X Y = X).
  { unfold OT.transform, OT.transformInsertInsert. rewrite HX, HY.
    zcases; try reflexivity; lia. }
  rewrite HYX, HXY.
  rewrite (insert_at_boundary _ b1 (b2 ++ b3) X) by side.
  rewrite (insert_at_boundary _ (b1 ++ op_content X ++ b2) b3) by side.
  rewrite (insert_at_boundary _ (b1 ++ b2) b3 Y) by side.
  rewrite (insert_at_boundary _ b1 (b2 ++ op_content Y ++ b3) X) by side.
  simpl. assoc.
Qed.

(** What [transform] makes of an insert and a delete when the insert is at
    or before the start of the deleted range. *)
Lemma transform_insert_delete_before (X Y : Operation) :
  op_type X = Insert -> op_type Y = Delete ->
  op_position X <= op_position Y -> 0 < op_length Y ->
  OT.transform X Y = X
  /\ OT.transform Y X
     = withPosition Y (op_position Y + JS.strlen (op_content X)).
Proof.
  intros HX HY Hle Hl.
  unfold OT.transform, OT.transformInsertDelete, OT.transformDeleteInsert.
  rewrite HX, HY. split; zcases; try reflexivity; lia.
Qed.

(** What [transform] makes of an insert and a delete when the insert is at
    or after the end of the deleted range. *)
Lemma transform_insert_delete_after (X Y : Operation) :
  op_type X = Insert -> op_type Y = Delete ->
  op_position Y + op_length Y <= op_position X -> 0 < op_length Y ->
  OT.transform X Y = withPosition X (op_position X - op_length Y)
  /\ OT.transform Y X = Y.
Proof.
  intros HX HY Hle Hl.
  unfold OT.transform, OT.transformInsertDelete, OT.transformDeleteInsert.
  rewrite HX, HY. split; zcases; try reflexivity; lia.
Qed.

(** An insert at or before the start of the range of a delete. *)
Lemma converge_insert_delete_before (base : list ascii) (X Y : Operation) :
  op_type X = Insert -> op_type Y = Delete ->
  0 <= op_position X -> op_position X <= op_position Y ->
  0 < op_length Y -> op_position Y + op_length Y <= JS.strlen base ->
  OT.applyToContent (OT.applyToContent base X) (OT.transform Y X)
  = OT.applyToContent (OT.applyToContent base Y) (OT.transform X Y).
Proof.
  intros HX HY H0 Hle Hl Hend.
  destruct (transform_insert_delete_before X Y HX HY Hle Hl) as [-> ->].
  destruct (split_at base (op_position X)) as (b1 & r1 & -> & Hb1);
    [lens |].
  destruct (split_at r1 (op_position Y - op_position X))
    as (b2 & r2 & -> & Hb2); [lens |].
  destruct (split_at r2 (op_length Y)) as (d & b3 & -> & Hd); [lens |].
  rewrite (insert_at_boundary _ b1 (b2 ++ d ++ b3) X) by side.
  rewrite (delete_at_boundary _ (b1 ++ op_content X ++ b2) d b3) by side.
  rewrite (delete_at_boundary _ (b1 ++ b2) d b3 Y) by side.
  rewrite (insert_at_boundary _ b1 (b2 ++ b3) X) by side.
  assoc.
Qed.

(** An insert at or after the end of the range of a delete. *)
Lemma converge_insert_delete_after (base : list ascii) (X Y : Operation) :
  op_type X = Insert -> op_type Y = Delete ->
  0 <= op_position Y -> 0 < op_length Y ->
  op_position Y + op_length Y <= op_position X ->
  op_position X <= JS.strlen base ->
  OT.applyToContent (OT.applyToContent base X) (OT.transform Y X)
  = OT.applyToContent (OT.applyToContent base Y) (OT.transform X Y).
Proof.
  intros HX HY H0 Hl Hle Hend.
  destruct (transform_insert_delete_after X Y HX HY Hle Hl) as [-> ->].
  destruct (split_at base (op_position Y)) as (b1 & r1 & -> & Hb1);
    [lens |].
  destruct (split_at r1 (op_length Y)) as (d & r2 & -> & Hd); [lens |].
  destruct (split_at r2 (op_position X - op_position Y - op_length Y))
    as (b2 & b3 & -> & Hb2); [lens |].
  rewrite (insert_at_boundary _ (b1 ++ d ++ b2) b3 X) by side.
  rewrite (delete_at_boundary _ b1 d (b2 ++ op_content X ++ b3) Y) by side.
  rewrite (delete_at_boundary _ b1 d (b2 ++ b3) Y) by side.
  rewrite (insert_at_boundary _ (b1 ++ b2) b3) by side.
  assoc.
Qed.

(** Two deletes, the range of the first ending at or before the start of
    the second. *)
Lemma converge_delete_delete_disjoint (base : list ascii) (X Y : Operation) :
  op_type X = Delete -> op_type Y = Delete ->
  0 <= op_position X -> 0 < op_length X -> 0 < op_length Y ->
  op_position X + op_length X <= op_position Y ->
  op_position Y + op_length Y <= JS.strlen base ->
  OT.applyToContent (OT.applyToContent base X) (OT.transform Y X)
  = OT.applyToContent (OT.applyToContent base Y) (OT.transform X Y).
Proof.
  intros HX HY H0 Hl1 Hl2 Hle Hend.
  assert (HXY : OT.transform X Y = X).
  { unfold OT.transform, OT.transformDeleteDelete. rewrite HX, HY.
    zcases; try reflexivity; lia. }
  assert (HYX : OT.transform Y X
                = withPosition Y (op_position Y - op_length X)).
  { unfold OT.transform, OT.transformDeleteDelete. rewrite HX, HY.
    zcases; try reflexivity; lia. }
  rewrite HXY, HYX.
  destruct (split_at base (op_position X)) as (b1 & r1 & -> & Hb1);
    [lens |].
  destruct (split_at r1 (op_length X)) as (d1 & r2 & -> & Hd1); [lens |].
  destruct (split_at r2 (op_position Y - op_position X - op_length X))
    as (b2 & r3 & -> & Hb2); [lens |].
  destruct (split_at r3 (op_length Y)) as (d2 & b3 & -> & Hd2); [lens |].
  rewrite (delete_at_boundary _ b1 d1 (b2 ++ d2 ++ b3) X) by side.
  rewrite (delete_at_boundary _ (b1 ++ b2) d2 b3) by side.
  rewrite (delete_at_boundary _ (b1 ++ d1 ++ b2) d2 b3 Y) by side.
  rewrite (delete_at_boundary _ b1 d1 (b2 ++ b3) X) by side.
  assoc.
Qed.

(** Two deletes, the range of the second within the range of the first. *)
Lemma converge_delete_delete_nested (base : list ascii) (X Y : Operation) :
  op_type X = Delete -> op_type Y = Delete ->
  0 <= op_position X -> 0 < op_length Y ->
  op_position X <= op_position Y ->
  op_position Y + op_length Y <= op_position X + op_length X ->
  op_position X + op_length X <= JS.strlen base ->
  OT.applyToContent (OT.applyToContent base X) (OT.transform Y X)
  = OT.applyToContent (OT.applyToContent base Y) (OT.transform X Y).
Proof.
  intros HX HY H0 Hl2 Hle Hin Hend.
  assert (HXY : OT.transform X Y
                = withLength X (op_length X - op_length Y)).
  { unfold OT.transform, OT.transformDeleteDelete. rewrite HX, HY.
    zcases; try reflexivity; lia. }
  assert (HYX : op_type (OT.transform Y X) = Delete
                /\ op_position (OT.transform Y X) = op_position Y
                /\ op_length (OT.transform Y X) = 0).
  { unfold OT.transform, OT.transformDeleteDelete. rewrite HX, HY.
    zcases; simpl; repeat split; try assumption; lia. }
  destruct HYX as (HtY & HpY & HlY).
  rewrite HXY.
  rewrite (applyToContent_delete_zero _ (OT.transform Y X))
    by (assumption || lia).
  destruct (split_at base (op_position X)) as (b1 & r1 & -> & Hb1);
    [lens |].
  destruct (split_at r1 (op_position Y - op_position X))
    as (m1 & r2 & -> & Hm1); [lens |].
  destruct (split_at r2 (op_length Y)) as (d2 & r3 & -> & Hd2); [lens |].
  destruct (split_at r3
              (op_position X + op_length X - op_position Y - op_length Y))
    as (m2 & b3 & -> & Hm2); [lens |].
  rewrite (delete_at_boundary _ b1 (m1 ++ d2 ++ m2) b3 X) by side.
  rewrite (delete_at_boundary _ (b1 ++ m1) d2 (m2 ++ b3) Y) by side.
  rewrite (delete_at_boundary _ b1 (m1 ++ m2) b3) by side.
  reflexivity.
Qed.

(** Outside the three conflicts [transform] converges: for two operations
    the base can take, applying one and then the other transformed against
    it gives the same content in both orders. *)
Lemma convergence_when_conflict_free (base : list ascii) (X Y : Operation) :
  validIn base X = true -> validIn base Y = true ->
  conflictFree X Y = true ->
  OT.applyToContent (OT.applyToContent base X) (OT.transform Y X)
  = OT.applyToContent (OT.applyToContent base Y) (OT.transform X Y).
Proof.
  unfold validIn, conflictFree. intros HvX HvY Hfree.
  destruct (op_type X) eqn:HX, (op_type Y) eqn:HY;
    try (unfold OT.transform; rewrite ?HX, ?HY; cbv beta iota;
         unfold OT.applyToContent; rewrite ?HX, ?HY; reflexivity);
    boolprops HvX; boolprops HvY; boolprops Hfree.
  - destruct (Z.lt_total (op_position X) (op_position Y)) as [Hlt | [? | Hgt]];
      [| lia |].
    + apply converge_insert_insert_lt; assumption || lia.
    + symmetry. apply converge_insert_insert_lt; assumption || lia.
  - destruct Hfree.
    + apply converge_insert_delete_before; assumption || lia.
    + apply converge_insert_delete_after; assumption || lia.
  - symmetry. destruct Hfree.
    + apply converge_insert_delete_before; assumption || lia.
    + apply converge_insert_delete_after; assumption || lia.
  - destruct Hfree as [[[Hd | Hd] | [Ha Hb]] | [Ha Hb]].
    + apply converge_delete_delete_disjoint; assumption || lia.
    + symmetry. apply converge_delete_delete_disjoint; assumption || lia.
    + apply converge_delete_delete_nested; assumption || lia.
    + symmetry. apply converge_delete_delete_nested; assumption || lia.
Qed.

(** Scenario A: on ["Hello"], A = insert(5, "!") and then
    B = insert(0, "Hi ") transformed against it give ["Hi Hello!"]. *)
Lemma scenario_A :
  let A := mkInsert "a" 5 "!" "alice" 10 in
  let B := mkInsert "b" 0 "Hi " "bob" 20 in
  OT.applyToContent (JS.chars "Hello") A = JS.chars "Hello!"
  /\ OT.transform B A = B
  /\ OT.applyToContent (JS.chars "Hello!") (OT.transform B A)
     = JS.chars "Hi Hello!".
Proof. repeat split. Qed.

(** C1. Convergence of [transform] with [applyToContent] does not hold on
    the code. On the base ["abcd"], with X = delete(1, 2) and
    Y = insert(2, "X") issued against it, X followed by transform(Y, X)
    gives ["aXd"], while Y followed by transform(X, Y) gives ["aabXcd"]:
    transform(X, Y) is a delete of length -1, and [slice] then returns the
    whole content for the part after the deleted range. *)
Theorem convergence_delete_insert_diverges :
  let base := JS.chars "abcd" in
  let X := mkDelete "x" 1 2 "alice" 10 in
  let Y := mkInsert "y" 2 "X" "bob" 20 in
  OT.applyToContent (OT.applyToContent base X) (OT.transform Y X)
  = JS.chars "aXd"
  /\ OT.applyToContent (OT.applyToContent base Y) (OT.transform X Y)
     = JS.chars "aabXcd"
  /\ op_length (OT.transform X Y) = -1.
Proof. repeat split. Qed.

(** C2. Two inserts at one position do not converge on the code. On the
    empty document, with X = insert(0, "a") by alice at time 1 and
    Y = insert(0, "b") by bob at time 2, X followed by transform(Y, X)
    gives ["ba"], while Y followed by transform(X, Y) gives ["ab"]:
    [transformInsertInsert] compares the positions only, so whichever
    insert the server receives second ends up in front, although alice's
    has the smaller (timestamp, userId). *)
Theorem insert_tie_follows_arrival_order :
  let X := mkInsert "x" 0 "a" "alice" 1 in
  let Y := mkInsert "y" 0 "b" "bob" 2 in
  OT.applyToContent (OT.applyToContent [] X) (OT.transform Y X)
  = JS.chars "ba"
  /\ OT.applyToContent (OT.applyToContent [] Y) (OT.transform X Y)
     = JS.chars "ab"
  /\ OT.applyToContent (OT.applyToContent [] X) (OT.transform Y X)
     <> OT.applyToContent (OT.applyToContent [] Y) (OT.transform X Y).
Proof. repeat split. discriminate. Qed.

(** For two inserts at one position, [transform]
    and the gateway's [transformAgainstOperation] return their first
    argument as it is, whatever the timestamps and the authors; applied
    after the other insert, its text therefore lands in front of the text
    of the insert that was applied first. *)
Lemma insert_tie_keeps_first_argument
    (op1 op2 : Operation) (base : list ascii) :
  op_type op1 = Insert -> op_type op2 = Insert ->
  op_position op1 = op_position op2 ->
  0 <= op_position op1 <= JS.strlen base ->
  OT.transform op1 op2 = op1
  /\ Gateway.transformAgainstOperation op1 op2 = op1
  /\ OT.applyToContent (OT.applyToContent base op2) (OT.transform op1 op2)
     = take (Z.to_nat (op_position op1)) base
         ++ op_content op1 ++ op_content op2
         ++ drop (Z.to_nat (op_position op1)) base.
Proof.
  intros H1 H2 Hp Hb.
  assert (Ht : OT.transform op1 op2 = op1).
  { unfold OT.transform, OT.transformInsertInsert. rewrite H1, H2.
    zcases; [reflexivity | lia]. }
  split; [exact Ht | split].
  - unfold Gateway.transformAgainstOperation. rewrite H1, H2.
    zcases; [reflexivity | lia].
  - rewrite Ht. unfold JS.strlen in Hb.
    rewrite (applyToContent_insert base op2) by (assumption || lia).
    rewrite applyToContent_insert by (assumption || lia).
    rewrite <- Hp.
    rewrite take_app_length' by (rewrite length_take; lia).
    rewrite drop_app_length' by (rewrite length_take; lia).
    reflexivity.
Qed.

Lemma insert_tie_keeps_first_argument_witness :
  let X := mkInsert "x" 0 "a" "alice" 1 in
  let Y := mkInsert "y" 0 "b" "bob" 2 in
  OT.transform Y X = Y
  /\ Gateway.transformAgainstOperation Y X = Y
  /\ OT.applyToContent (OT.applyToContent [] X) (OT.transform Y X)
     = JS.chars "ba".
Proof.
  intros X Y.
  apply (insert_tie_keeps_first_argument Y X []);
    [reflexivity | reflexivity | reflexivity | unfold JS.strlen; simpl; lia].
Defined.

(** C3. With the insertion point strictly inside the deleted range the
    code does not grow the delete: for A = delete(1, 3) and
    B = insert(2, "X"), [transform] gives A the length 1 - 2 = -1, not
    3 + 1 = 4, and the gateway returns A as it is. *)
Theorem transformDeleteInsert_inside_at_input :
  let A := mkDelete "a" 1 3 "alice" 10 in
  let B := mkInsert "b" 2 "X" "bob" 20 in
  OT.transform A B = withLength A (-1)
  /\ op_length (OT.transform A B)
     <> op_length A + JS.strlen (op_content B)
  /\ Gateway.transformAgainstOperation A B = A.
Proof. repeat split. discriminate. Qed.

(** C4. When the other delete starts before this one and overlaps it, the
    code leaves the position where it was: for A = delete(2, 3) and
    B = delete(1, 2), transform(A, B) is delete(2, 2), so on ["abcdef"] B
    then transform(A, B) gives ["ad"], while A then transform(B, A) gives
    ["af"]. *)
Theorem transformDeleteDelete_overlap_keeps_position :
  let A := mkDelete "a" 2 3 "alice" 10 in
  let B := mkDelete "b" 1 2 "bob" 20 in
  op_position B < op_position A
  /\ OT.transform A B = withLength A 2
  /\ op_position (OT.transform A B) = op_position A
  /\ OT.applyToContent (OT.applyToContent (JS.chars "abcdef") B)
       (OT.transform A B) = JS.chars "ad"
  /\ OT.applyToContent (OT.applyToContent (JS.chars "abcdef") A)
       (OT.transform B A) = JS.chars "af".
Proof. repeat split. Qed.

(** ** The gateway *)

(** C10. [getOperationsBetweenVersions] returns the empty list for every
    entity and every pair of versions, [transformOperation] returns the
    operation it is given, and what [applyOperation] then stores on a
    version mismatch is what it stores for the submitted operation
    itself. *)
Theorem transformOperation_returns_input
    (operation : Operation) (entityType entityId : string)
    (fromVersion toVersion : Z) (f : Gateway.Faults) (st : Gateway.Store) :
  Gateway.getOperationsBetweenVersions entityType entityId fromVersion
    toVersion = []
  /\ Gateway.transformOperation operation fromVersion toVersion = operation
  /\ Gateway.applyOperation entityType entityId
       (Gateway.transformOperation operation fromVersion toVersion) f st
     = Gateway.applyOperation entityType entityId operation f st.
Proof. repeat split. Qed.

(** A non-empty string is truthy. *)
Lemma eqb_empty_false (s : string) : s <> "" -> String.eqb s "" = false.
Proof. intros H. apply String.eqb_neq. exact H. Qed.

(** With the code as it is written, a submission that claims version 5 of
    an entity whose version is read as 0 is answered with
    ['Failed to process operation'], the error of any failed submission
    and no version error: the same submission with version 0 is answered
    in the same way. *)
Lemma ahead_of_authority_gets_no_version_error :
  let op := mkInsert "op-1" 0 "a" "alice" 10 in
  let ahead := Gateway.mkOperationData "task" "42" (Some op) 5 in
  let inStep := Gateway.mkOperationData "task" "42" (Some op) 0 in
  let st := Gateway.mkStore ∅ [] in
  Gateway.getCurrentVersion "task" "42"
    (Gateway.handlerGetFails Gateway.asWritten) st = 0
  /\ Gateway.od_version ahead > 0
  /\ Gateway.onOperationSend ahead Gateway.asWritten st
     = (st,
        [Gateway.ToSender
           (Gateway.OperationError "op-1" "Failed to process operation")])
  /\ existsb isVersionMismatch
       (snd (Gateway.onOperationSend ahead Gateway.asWritten st)) = false
  /\ Gateway.onOperationSend inStep Gateway.asWritten st
     = Gateway.onOperationSend ahead Gateway.asWritten st.
Proof. vm_compute. repeat split. Qed.

(** C5, as the code has it. The handler rejects no submission for its
    version: what a submission does to the store and what is emitted for
    it do not depend on the version the client sends, whichever awaited
    calls throw. A client ahead of the authority is answered as it would
    be with any other version, the current one included. *)
Theorem clientVersion_plays_no_part
    (entityType entityId : string) (operation : option Operation)
    (v1 v2 : Z) (f : Gateway.Faults) (st : Gateway.Store) :
  Gateway.onOperationSend
    (Gateway.mkOperationData entityType entityId operation v1) f st
  = Gateway.onOperationSend
      (Gateway.mkOperationData entityType entityId operation v2) f st.
Proof.
  assert (Hone : forall v,
    Gateway.onOperationSend
      (Gateway.mkOperationData entityType entityId operation v) f st
    = Gateway.onOperationSend
        (Gateway.mkOperationData entityType entityId operation
           (Gateway.getCurrentVersion entityType entityId
              (Gateway.handlerGetFails f) st)) f st).
  { intros v. unfold Gateway.onOperationSend.
    cbn [Gateway.od_entityType Gateway.od_entityId Gateway.od_operation
         Gateway.od_version].
    destruct (String.eqb entityType "" || String.eqb entityId "");
      [reflexivity |].
    destruct operation as [operation |]; [| reflexivity].
    destruct (negb (Gateway.validateOperation operation)); [reflexivity |].
    rewrite (Z.eqb_refl (Gateway.getCurrentVersion _ _ _ _)).
    destruct (Z.eqb_spec v
                (Gateway.getCurrentVersion entityType entityId
                   (Gateway.handlerGetFails f) st)) as [-> | Hne];
      reflexivity. }
  rewrite (Hone v1), (Hone v2). reflexivity.
Qed.

(** When the write of the version or the creation of the row throws for a
    valid submission, the handler emits the error to the sender and nothing
    else. *)
Lemma failed_apply_reports_to_sender
    (data : Gateway.OperationData) (operation : Operation)
    (f : Gateway.Faults) (st : Gateway.Store) :
  Gateway.od_entityType data <> "" ->
  Gateway.od_entityId data <> "" ->
  Gateway.od_operation data = Some operation ->
  Gateway.validateOperation operation = true ->
  Gateway.setFails f || Gateway.createFails f = true ->
  snd (Gateway.onOperationSend data f st)
  = [Gateway.ToSender
       (Gateway.OperationError (op_id operation)
          "Failed to process operation")].
Proof.
  intros Ht Hi Hop Hvalid Hfail.
  unfold Gateway.onOperationSend, Gateway.applyOperation.
  rewrite (eqb_empty_false _ Ht), (eqb_empty_false _ Hi), Hop, Hvalid.
  cbn [orb negb].
  destruct (negb (Gateway.od_version data =? _));
    destruct (Gateway.setFails f), (Gateway.createFails f);
    try discriminate; reflexivity.
Qed.

(** Whenever the gateway sends an error to the submitting socket, nothing
    is broadcast to the room and the operation table is as before; when
    the write of the version throws, the whole store is as before. *)
Lemma gateway_failure_effects
    (data : Gateway.OperationData) (f : Gateway.Faults)
    (st st' : Gateway.Store) (emitted : list Gateway.Emit) :
  Gateway.onOperationSend data f st = (st', emitted) ->
  existsb Gateway.isSenderError emitted = true ->
  existsb Gateway.isBroadcast emitted = false
  /\ Gateway.operationTable st' = Gateway.operationTable st
  /\ (Gateway.setFails f = true -> st' = st).
Proof.
  unfold Gateway.onOperationSend, Gateway.applyOperation.
  intros Hrun Herr.
  destruct (String.eqb (Gateway.od_entityType data) ""
            || String.eqb (Gateway.od_entityId data) "");
    [injection Hrun as <- <-; discriminate |].
  destruct (Gateway.od_operation data) as [operation |];
    [| injection Hrun as <- <-; discriminate].
  destruct (negb (Gateway.validateOperation operation));
    [injection Hrun as <- <-; simpl; auto |].
  destruct (negb (Gateway.od_version data
                  =? Gateway.getCurrentVersion (Gateway.od_entityType data)
                       (Gateway.od_entityId data) (Gateway.handlerGetFails f)
                       st));
    destruct (Gateway.setFails f), (Gateway.createFails f);
    injection Hrun as <- <-; simpl in Herr; try discriminate; simpl;
    (split; [reflexivity | split; [reflexivity |]]);
    intros Hset; first [reflexivity | discriminate Hset].
Qed.

(** When [applyOperation] of the service throws, the handler of the guide
    sends the message to the sender alone and no row has been persisted;
    the service is as before when the document is unknown, but when
    [persistOperation] throws the document already holds the new content,
    the next version and the operation. *)
Lemma service_failure_effects
    (entityType entityId : string) (operation : Operation)
    (persistFails : bool) (s s' : OT.Service) (message : string) :
  OT.applyOperation entityId operation persistFails s
  = (s', OT.Thrown message) ->
  Guide.onOperationSend entityType entityId operation persistFails s
  = (s', [Guide.ToSender (Guide.OperationError (op_id operation) message)])
  /\ OT.persisted s' = OT.persisted s
  /\ match OT.documentStates s !! entityId with
     | None => s' = s
     | Some d =>
         OT.documentStates s'
         = <[entityId :=
               OT.mkDocumentState
                 (OT.applyToContent (OT.content d)
                    (OT.transformOperation operation d))
                 (OT.version d + 1)
                 (OT.operations d ++ [OT.transformOperation operation d])]>
             (OT.documentStates s)
     end.
Proof.
  intros Hrun. unfold Guide.onOperationSend. rewrite Hrun.
  split; [reflexivity |].
  unfold OT.applyOperation in Hrun.
  destruct (OT.documentStates s !! entityId) as [d |].
  - destruct persistFails; [| discriminate Hrun].
    injection Hrun as <- _. split; reflexivity.
  - injection Hrun as <- _. split; reflexivity.
Qed.

(** The document ["42"] is empty at version 0; [persistOperation] throws
    for an insert of ["a"]. The sender gets the error and nothing else is
    emitted, but the document now holds ["a"] at version 1 with the
    operation in its list. *)
Lemma failed_persist_leaves_document_changed :
  let op := mkInsert "op-1" 0 "a" "alice" 10 in
  let s0 := OT.initializeDocument "42" [] (OT.mkService ∅ []) in
  let result := Guide.onOperationSend "task" "42" op true s0 in
  snd result
  = [Guide.ToSender (Guide.OperationError "op-1" "persistOperation failed")]
  /\ OT.documentStates s0 !! "42" = Some (OT.mkDocumentState [] 0 [])
  /\ OT.documentStates (fst result) !! "42"
     = Some (OT.mkDocumentState (JS.chars "a") 1 [op])
  /\ OT.documentStates (fst result) !! "42" <> OT.documentStates s0 !! "42".
Proof. vm_compute. repeat split. discriminate. Qed.

(** C7, as the code has it. When the handling of a submission fails, the
    sender gets the error, nothing is broadcast and nothing is stored in
    the database, in the service of the guide as in the gateway. The state
    is as before in the gateway whenever the write of the version throws,
    and in the service when the document is unknown; when
    [persistOperation] of the service throws, the document already holds
    the new content, the version raised by one and the operation. *)
Theorem failed_submission_effects
    (entityType entityId : string) (operation : Operation)
    (persistFails : bool) (s s' : OT.Service) (message : string)
    (data : Gateway.OperationData) (f : Gateway.Faults)
    (st st' : Gateway.Store) (emitted : list Gateway.Emit) :
  OT.applyOperation entityId operation persistFails s
  = (s', OT.Thrown message) ->
  Gateway.onOperationSend data f st = (st', emitted) ->
  existsb Gateway.isSenderError emitted = true ->
  (Guide.onOperationSend entityType entityId operation persistFails s
   = (s', [Guide.ToSender (Guide.OperationError (op_id operation) message)])
   /\ OT.persisted s' = OT.persisted s
   /\ match OT.documentStates s !! entityId with
      | None => s' = s
      | Some d =>
          OT.documentStates s'
          = <[entityId :=
                OT.mkDocumentState
                  (OT.applyToContent (OT.content d)
                     (OT.transformOperation operation d))
                  (OT.version d + 1)
                  (OT.operations d ++ [OT.transformOperation operation d])]>
              (OT.documentStates s)
      end)
  /\ (existsb Gateway.isBroadcast emitted = false
      /\ Gateway.operationTable st' = Gateway.operationTable st
      /\ (Gateway.setFails f = true -> st' = st)).
Proof.
  intros Hservice Hgateway Herr. split.
  - apply service_failure_effects. exact Hservice.
  - apply (gateway_failure_effects data f); assumption.
Qed.

Lemma failed_submission_effects_witness :
  let op := mkInsert "op-1" 0 "a" "alice" 10 in
  let s0 := OT.initializeDocument "42" [] (OT.mkService ∅ []) in
  let s1 := fst (OT.applyOperation "42" op true s0) in
  let data := Gateway.mkOperationData "task" "42" (Some op) 0 in
  let st := Gateway.mkStore ∅ [] in
  let st' := fst (Gateway.onOperationSend data Gateway.asWritten st) in
  let emitted := snd (Gateway.onOperationSend data Gateway.asWritten st) in
  (Guide.onOperationSend "task" "42" op true s0
   = (s1,
      [Guide.ToSender (Guide.OperationError "op-1" "persistOperation failed")])
   /\ OT.persisted s1 = OT.persisted s0
   /\ match OT.documentStates s0 !! "42" with
      | None => s1 = s0
      | Some d =>
          OT.documentStates s1
          = <["42" :=
                OT.mkDocumentState
                  (OT.applyToContent (OT.content d)
                     (OT.transformOperation op d))
                  (OT.version d + 1)
                  (OT.operations d ++ [OT.transformOperation op d])]>
              (OT.documentStates s0)
      end)
  /\ (existsb Gateway.isBroadcast emitted = false
      /\ Gateway.operationTable st' = Gateway.operationTable st
      /\ (Gateway.setFails Gateway.asWritten = true -> st' = st)).
Proof.
  intros op s0 s1 data st st' emitted.
  apply (failed_submission_effects "task" "42" op true s0 s1
           "persistOperation failed" data Gateway.asWritten st st' emitted);
    reflexivity.
Defined.

(** ** The document service *)

(** One call of [applyOperation] on a known document returns, raises the
    version by one and appends one operation and one persisted row. *)
Lemma applyOperation_returns
    (entityId : string) (operation : Operation) (s : OT.Service)
    (d : OT.DocumentState) :
  OT.documentStates s !! entityId = Some d ->
  exists s' d' r,
    OT.applyOperation entityId operation false s = (s', OT.Returned r)
    /\ OT.documentStates s' !! entityId = Some d'
    /\ OT.content d'
       = OT.applyToContent (OT.content d) (OT.transformOperation operation d)
    /\ OT.version d' = OT.version d + 1
    /\ OT.operations d'
       = OT.operations d ++ [OT.transformOperation operation d]
    /\ OT.persisted s'
       = OT.persisted s ++ [(entityId, OT.transformOperation operation d)]
    /\ OT.tr_version r = OT.version d + 1.
Proof.
  intros Hd. unfold OT.applyOperation. rewrite Hd.
  eexists _, _, _. split; [reflexivity |].
  simpl. rewrite lookup_insert_eq. repeat split.
Qed.

(** When [persistOperation] throws, the content, the version and the
    operation list of the document are already the new ones. *)
Lemma applyOperation_persist_failure
    (entityId : string) (operation : Operation) (s : OT.Service)
    (d : OT.DocumentState) :
  OT.documentStates s !! entityId = Some d ->
  exists s' message,
    OT.applyOperation entityId operation true s = (s', OT.Thrown message)
    /\ OT.documentStates s' !! entityId
       = Some
           (OT.mkDocumentState
              (OT.applyToContent (OT.content d)
                 (OT.transformOperation operation d))
              (OT.version d + 1)
              (OT.operations d ++ [OT.transformOperation operation d]))
    /\ OT.persisted s' = OT.persisted s.
Proof.
  intros Hd. unfold OT.applyOperation. rewrite Hd.
  eexists _, _. split; [reflexivity |].
  simpl. rewrite lookup_insert_eq. split; reflexivity.
Qed.

(** A run of calls on a known document never throws, and raises the
    version and the length of the operation list by the number of calls. *)
Lemma applyAll_counts (entityId : string) (ops : list Operation) :
  forall (s : OT.Service) (d : OT.DocumentState),
    OT.documentStates s !! entityId = Some d ->
    exists s' d',
      OT.applyAll entityId ops s = Some s'
      /\ OT.documentStates s' !! entityId = Some d'
      /\ OT.version d' = OT.version d + Z.of_nat (List.length ops)
      /\ List.length (OT.operations d')
         = (List.length (OT.operations d) + List.length ops)%nat
      /\ List.length (OT.persisted s')
         = (List.length (OT.persisted s) + List.length ops)%nat.
Proof.
  induction ops as [| operation rest IH]; intros s d Hd.
  - exists s, d. simpl. repeat split; try assumption; lia.
  - destruct (applyOperation_returns entityId operation s d Hd)
      as (s1 & d1 & r & Hrun & Hd1 & _ & Hv & Hops & Hper & _).
    destruct (IH s1 d1 Hd1) as (s' & d' & Hall & Hd' & Hv' & Hops' & Hper').
    exists s', d'. simpl OT.applyAll. rewrite Hrun.
    split; [exact Hall |]. split; [exact Hd' |].
    rewrite Hv', Hops', Hper', Hv, Hops, Hper, !length_app. simpl List.length.
    repeat split; lia.
Qed.

(** [initializeDocument] keeps the invariant. *)
Lemma initializeDocument_versionIsLength
    (entityId : string) (c : list ascii) (s : OT.Service) :
  versionIsLength s -> versionIsLength (OT.initializeDocument entityId c s).
Proof.
  intros Hs k d. unfold OT.initializeDocument. simpl.
  destruct (decide (entityId = k)) as [-> | Hne].
  - rewrite lookup_insert_eq. intros [= <-]. reflexivity.
  - rewrite lookup_insert_ne by assumption. apply Hs.
Qed.

(** Every call of [applyOperation] keeps the invariant, whether it returns
    or throws. *)
Lemma applyOperation_versionIsLength
    (entityId : string) (operation : Operation) (persistFails : bool)
    (s : OT.Service) :
  versionIsLength s ->
  versionIsLength (fst (OT.applyOperation entityId operation persistFails s)).
Proof.
  intros Hs k d. unfold OT.applyOperation.
  destruct (OT.documentStates s !! entityId) as [d0 |] eqn:Hd0;
    [| apply Hs].
  assert (Hgoal :
    <[entityId :=
        OT.mkDocumentState
          (OT.applyToContent (OT.content d0)
             (OT.transformOperation operation d0))
          (OT.version d0 + 1)
          (OT.operations d0 ++ [OT.transformOperation operation d0])]>
      (OT.documentStates s) !! k = Some d ->
    OT.version d = Z.of_nat (List.length (OT.operations d))).
  { destruct (decide (entityId = k)) as [-> | Hne].
    - rewrite lookup_insert_eq. intros [= <-]. simpl.
      rewrite length_app, (Hs _ _ Hd0). simpl. lia.
    - rewrite lookup_insert_ne by assumption. apply Hs. }
  destruct persistFails; exact Hgoal.
Qed.

(** C8. After [initializeDocument] and a run of N calls of
    [applyOperation] on the entity, none of which throws, the version of
    the document is N and it holds N operations; such a run exists for
    every list of N operations. *)
Theorem version_counts_applied_operations
    (entityId : string) (c : list ascii) (s : OT.Service)
    (ops : list Operation) :
  exists (s' : OT.Service) (d : OT.DocumentState),
    OT.applyAll entityId ops (OT.initializeDocument entityId c s) = Some s'
    /\ OT.documentStates s' !! entityId = Some d
    /\ OT.version d = Z.of_nat (List.length ops)
    /\ List.length (OT.operations d) = List.length ops.
Proof.
  destruct (applyAll_counts entityId ops
              (OT.initializeDocument entityId c s)
              (OT.mkDocumentState c 0 []))
    as (s' & d & Hall & Hd & Hv & Hops & _).
  { unfold OT.initializeDocument. simpl. apply lookup_insert_eq. }
  exists s', d. simpl in Hv, Hops. repeat split; assumption.
Qed.

(** The operation ["op-1"] submitted twice to a fresh empty document is
    applied twice: the content is ["aa"], the version 2, and the document
    holds the operation twice. *)
Lemma resubmission_is_applied_again :
  let op := mkInsert "op-1" 0 "a" "alice" 10 in
  let s0 := OT.initializeDocument "42" [] (OT.mkService ∅ []) in
  match OT.applyAll "42" [op; op] s0 with
  | Some s2 => OT.documentStates s2 !! "42"
  | None => None
  end
  = Some (OT.mkDocumentState (JS.chars "aa") 2 [op; op]).
Proof. vm_compute. reflexivity. Qed.

(** The transforms keep the author of an operation. *)
Lemma transform_userId (op1 op2 : Operation) :
  op_userId (OT.transform op1 op2) = op_userId op1.
Proof.
  unfold OT.transform, OT.transformInsertInsert, OT.transformInsertDelete,
    OT.transformDeleteInsert, OT.transformDeleteDelete.
  destruct (op_type op1), (op_type op2); zcases; reflexivity.
Qed.

(** What [transformOperation] returns is by the author of the operation it
    was given. *)
Lemma transformOperation_userId (operation : Operation)
    (d : OT.DocumentState) :
  op_userId (OT.transformOperation operation d) = op_userId operation.
Proof.
  unfold OT.transformOperation.
  assert (Hfold : forall ops op0,
    op_userId
      (fold_left
         (fun transformedOp concurrentOp =>
            if OT.areConcurrent operation concurrentOp
            then OT.transform transformedOp concurrentOp
            else transformedOp)
         ops op0)
    = op_userId op0).
  { induction ops as [| o rest IH]; intros op0; [reflexivity |].
    simpl. rewrite IH.
    destruct (OT.areConcurrent operation o);
      [apply transform_userId | reflexivity]. }
  apply Hfold.
Qed.

(** An operation is not transformed against an earlier copy of itself: the
    copy is by the same author, so it does not count as concurrent. *)
Lemma transformOperation_after_own_copy (operation : Operation)
    (d : OT.DocumentState) (newContent : list ascii) (v : Z) :
  OT.transformOperation operation
    (OT.mkDocumentState newContent v
       (OT.operations d ++ [OT.transformOperation operation d]))
  = OT.transformOperation operation d.
Proof.
  unfold OT.transformOperation at 1. cbn [OT.operations].
  rewrite fold_left_app. cbn [fold_left].
  fold (OT.transformOperation operation d).
  unfold OT.areConcurrent.
  rewrite transformOperation_userId, String.eqb_refl. reflexivity.
Qed.

(** C6, as the code has it. [applyOperation] of the service does not look
    at the id of an operation: the same operation submitted twice to a
    known document is applied twice. Both times it is the operation as
    transformed against the document; the second time it is applied to the
    content the first has produced, and the version rises by two, the
    operation list and the persisted rows each take it twice. *)
Theorem resubmission_applies_twice
    (entityId : string) (operation : Operation) (s : OT.Service)
    (d : OT.DocumentState) :
  OT.documentStates s !! entityId = Some d ->
  let applied := OT.transformOperation operation d in
  exists s2 : OT.Service,
    OT.applyAll entityId [operation; operation] s = Some s2
    /\ OT.documentStates s2 !! entityId
       = Some
           (OT.mkDocumentState
              (OT.applyToContent
                 (OT.applyToContent (OT.content d) applied) applied)
              (OT.version d + 2)
              (OT.operations d ++ [applied; applied]))
    /\ OT.persisted s2
       = OT.persisted s ++ [(entityId, applied); (entityId, applied)].
Proof.
  intros Hd applied. subst applied.
  unfold OT.applyAll, OT.applyOperation. rewrite Hd.
  cbn [OT.documentStates OT.persisted]. rewrite lookup_insert_eq.
  cbn [OT.content OT.version OT.operations].
  rewrite transformOperation_after_own_copy.
  eexists. split; [reflexivity |].
  cbn [OT.documentStates OT.persisted]. rewrite lookup_insert_eq.
  split.
  - f_equal. f_equal; [lia |]. rewrite <- app_assoc. reflexivity.
  - rewrite <- app_assoc. reflexivity.
Qed.

Lemma resubmission_applies_twice_witness :
  let op := mkInsert "op-1" 0 "a" "alice" 10 in
  let s0 := OT.initializeDocument "42" [] (OT.mkService ∅ []) in
  exists s2 : OT.Service,
    OT.applyAll "42" [op; op] s0 = Some s2
    /\ OT.documentStates s2 !! "42"
       = Some (OT.mkDocumentState (JS.chars "aa") (0 + 2) ([] ++ [op; op]))
    /\ OT.persisted s2 = [] ++ [("42", op); ("42", op)].
Proof.
  intros op s0.
  apply (resubmission_applies_twice "42" op s0 (OT.mkDocumentState [] 0 [])).
  reflexivity.
Defined.

(** ** The presence service *)

Lemma mapHas_In (k : string) (p : Presence.Presence)
    (m : Presence.PresenceMap) :
  In (k, p) m -> Presence.mapHas k m = true.
Proof.
  intros Hin. unfold Presence.mapHas. apply existsb_exists.
  exists (k, p). split; [exact Hin | apply String.eqb_refl].
Qed.








(** The maps of the service are well keyed: the empty map is, and
    [updatePresence] and [removePresence] keep a map so. *)
Lemma wellKeyed_empty : Presence.wellKeyed [].
Proof. split; constructor. Qed.

(** A key the map does not have is not among its keys. *)
Lemma mapHas_false_not_key (k : string) (m : Presence.PresenceMap) :
  Presence.mapHas k m = false -> ~ In k (map fst m).
Proof.
  intros Hhas Hin. apply in_map_iff in Hin as ([k' p] & Hk & Hin).
  simpl in Hk. subst k'. rewrite (mapHas_In k p m Hin) in Hhas.
  discriminate.
Qed.

(** The keys after [set]. *)
Lemma mapSet_keys (k : string) (v : Presence.Presence)
    (m : Presence.PresenceMap) :
  map fst (Presence.mapSet k v m)
  = if Presence.mapHas k m then map fst m else map fst m ++ [k].
Proof.
  induction m as [| [k' v'] rest IH]; [reflexivity |].
  simpl. unfold Presence.mapHas in *. simpl.
  destruct (String.eqb_spec k' k) as [-> | Hne]; simpl; [reflexivity |].
  rewrite IH. destruct (existsb _ rest); reflexivity.
Qed.

(** [set] under the key of the fields of an entry keeps a map well keyed. *)
Lemma wellKeyed_mapSet (userId entityType entityId : string)
    (v : Presence.Presence) (m : Presence.PresenceMap) :
  Presence.p_userId v = userId -> Presence.p_entityType v = entityType ->
  Presence.p_entityId v = entityId ->
  Presence.wellKeyed m ->
  Presence.wellKeyed
    (Presence.mapSet (Presence.presenceKey userId entityType entityId) v m).
Proof.
  intros Hu Ht Hi [Hnd Hkeys]. split.
  - rewrite mapSet_keys.
    destruct (Presence.mapHas _ m) eqn:Hhas; [exact Hnd |].
    apply NoDup_app. split; [exact Hnd |]. split; [| apply NoDup_singleton].
    intros x Hx Hx'. apply list_elem_of_singleton in Hx'. subst x.
    apply list_elem_of_In in Hx.
    exact (mapHas_false_not_key _ _ Hhas Hx).
  - clear Hnd. induction m as [| [k' v'] rest IH].
    + repeat constructor. simpl. congruence.
    + apply Forall_cons in Hkeys as [Hk Hkeys]. simpl.
      destruct (String.eqb_spec k'
                  (Presence.presenceKey userId entityType entityId)).
      * constructor; [simpl; congruence | exact Hkeys].
      * constructor; [exact Hk | apply IH; exact Hkeys].
Qed.

Lemma wellKeyed_updatePresence (now : Z) (dbOk : string -> bool)
    (userId entityType entityId : string) (status : Presence.PresenceStatus)
    (cursorPosition : option (Z * Z)) (m : Presence.PresenceMap) :
  Presence.wellKeyed m ->
  Presence.wellKeyed
    (fst (fst (Presence.updatePresence now dbOk userId entityType entityId
                 status cursorPosition m))).
Proof.
  intros Hm. unfold Presence.updatePresence.
  destruct (dbOk _); simpl; apply wellKeyed_mapSet; auto.
Qed.

Lemma wellKeyed_mapDelete (k : string) (m : Presence.PresenceMap) :
  Presence.wellKeyed m -> Presence.wellKeyed (Presence.mapDelete k m).
Proof.
  intros [Hnd Hkeys]. unfold Presence.mapDelete. split.
  - clear Hkeys. induction m as [| [k' v'] rest IH]; [constructor |].
    simpl in Hnd. apply NoDup_cons in Hnd as [Hfresh Hnd]. simpl.
    destruct (String.eqb k' k); simpl; [apply IH; exact Hnd |].
    apply NoDup_cons. split; [| apply IH; exact Hnd].
    intros Hin. apply Hfresh. apply list_elem_of_In.
    apply list_elem_of_In in Hin.
    apply in_map_iff in Hin as (e & He & Hin).
    apply filter_In in Hin as [Hin _].
    apply in_map_iff. exists e. split; assumption.
  - apply Forall_forall. intros e He. rewrite Forall_forall in Hkeys.
    apply Hkeys. apply list_elem_of_In. apply list_elem_of_In in He.
    apply filter_In in He as [He _]. exact He.
Qed.

Lemma wellKeyed_removePresence (dbOk : string -> bool)
    (userId entityType entityId : string) (m : Presence.PresenceMap) :
  Presence.wellKeyed m ->
  Presence.wellKeyed
    (fst (fst (Presence.removePresence dbOk userId entityType entityId m))).
Proof.
  intros Hm. unfold Presence.removePresence.
  destruct (dbOk _); simpl; apply wellKeyed_mapDelete; exact Hm.
Qed.

(** Deleting another key keeps an entry. *)
Lemma mapDelete_In (k k' : string) (p : Presence.Presence)
    (m : Presence.PresenceMap) :
  k <> k' -> In (k, p) m -> In (k, p) (Presence.mapDelete k' m).
Proof.
  intros Hne Hin. unfold Presence.mapDelete. apply filter_In.
  split; [exact Hin |]. simpl.
  destruct (String.eqb_spec k k'); [contradiction | reflexivity].
Qed.

(** With distinct keys, a key has one entry. *)
Lemma wellKeyed_functional (m : Presence.PresenceMap) (k : string)
    (p p' : Presence.Presence) :
  NoDup (map fst m) -> In (k, p) m -> In (k, p') m -> p = p'.
Proof.
  induction m as [| [k0 p0] rest IH]; intros Hnd Hp Hp'; [destruct Hp |].
  simpl in Hnd. apply NoDup_cons in Hnd as [Hfresh Hnd].
  assert (Hrest : forall q, In (k0, q) rest -> False).
  { intros q Hq. apply Hfresh. apply list_elem_of_In.
    apply (in_map fst) in Hq. exact Hq. }
  destruct Hp as [Hp | Hp], Hp' as [Hp' | Hp'].
  - congruence.
  - injection Hp as <- <-. destruct (Hrest _ Hp').
  - injection Hp' as <- <-. destruct (Hrest _ Hp).
  - exact (IH Hnd Hp Hp').
Qed.

(** The loop leaves in place an entry whose key is not that of an inactive
    entry still to be visited. *)
Lemma cleanupLoop_keeps (now : Z) (dbOk : string -> bool) (k : string)
    (p : Presence.Presence) (todo : Presence.PresenceMap) :
  Forall
    (fun e =>
       fst e
       = Presence.presenceKey (Presence.p_userId (snd e))
           (Presence.p_entityType (snd e)) (Presence.p_entityId (snd e)))
    todo ->
  (forall k' p', In (k', p') todo -> Presence.inactiveAt now p' -> k' <> k) ->
  forall m : Presence.PresenceMap,
    In (k, p) m ->
    In (k, p) (fst (fst (Presence.cleanupLoop now dbOk todo m))).
Proof.
  induction todo as [| [key presence] rest IH]; intros Hkeys Hne m Hin;
    [exact Hin |].
  apply Forall_cons in Hkeys as [Hkey Hkeys]. simpl in Hkey.
  assert (Hne' : forall k' p',
            In (k', p') rest -> Presence.inactiveAt now p' -> k' <> k)
    by (intros k' p' Hin'; apply Hne; right; exact Hin').
  simpl.
  destruct (Presence.mapHas key m); simpl; [| apply IH; assumption].
  destruct (now - Presence.p_lastSeen presence >? Presence.inactiveThreshold)
    eqn:Hstale; [| apply IH; assumption].
  assert (Hk : k <> key).
  { intros ->. apply (Hne key presence); [left; reflexivity | | reflexivity].
    unfold Presence.inactiveAt. apply Z.gtb_gt. exact Hstale. }
  unfold Presence.removePresence. rewrite <- Hkey.
  destruct (dbOk key).
  - destruct (Presence.cleanupLoop now dbOk rest
                (Presence.mapDelete key (Presence.mapDelete key m)))
      as [[m3 emitted'] r] eqn:Hrest.
    simpl. change m3 with (fst (fst (m3, emitted', r))). rewrite <- Hrest.
    apply IH; [assumption | assumption |].
    do 2 (apply mapDelete_In; [exact Hk |]). exact Hin.
  - simpl. do 2 (apply mapDelete_In; [exact Hk |]). exact Hin.
Qed.

(** The sweep keeps every entry that is not inactive. *)
Lemma sweep_keeps_active_presence
    (now : Z) (dbOk : string -> bool) (m : Presence.PresenceMap)
    (key : string) (presence : Presence.Presence) :
  Presence.wellKeyed m ->
  In (key, presence) m ->
  ~ Presence.inactiveAt now presence ->
  In (key, presence)
    (fst (fst (Presence.cleanupInactivePresences now dbOk m))).
Proof.
  intros [Hnd Hkeys] Hin Hactive.
  unfold Presence.cleanupInactivePresences.
  apply cleanupLoop_keeps; [exact Hkeys | | exact Hin].
  intros k' p' Hin' Hinactive ->.
  apply Hactive.
  rewrite (wellKeyed_functional m key presence p' Hnd Hin Hin').
  exact Hinactive.
Qed.

(** * Further properties of the code *)

(** ** Content and transforms *)

(** [slice(0, p)] and [slice(p)] cut the content in two at the index [p]
    resolves to, whatever the sign of [p]. *)
Lemma slice_cut (s : list ascii) (p : Z) :
  let k := Z.to_nat (JS.relIndex (JS.strlen s) p) in
  JS.slice s 0 p = take k s /\ JS.sliceFrom s p = drop k s
  /\ (k <= List.length s)%nat.
Proof.
  intros k. subst k. unfold JS.slice, JS.sliceFrom, JS.slice, JS.strlen.
  set (len := Z.of_nat (List.length s)).
  assert (Hlen : 0 <= len) by (subst len; lia).
  assert (Hk : 0 <= JS.relIndex len p <= len).
  { unfold JS.relIndex. destruct (Z.ltb_spec p 0); lia. }
  assert (H0 : JS.relIndex len 0 = 0) by (rewrite relIndex_nonneg; lia).
  assert (Hl : JS.relIndex len len = len) by (rewrite relIndex_nonneg; lia).
  rewrite H0, Hl, Z.sub_0_r. change (Z.to_nat 0) with 0%nat. rewrite drop_0.
  split; [reflexivity |]. split; [| subst len; lia].
  apply take_ge. rewrite length_drop. subst len. lia.
Qed.

(** X1. An insert keeps all the text there was, whatever its position,
    negative or beyond the end: the content is cut in two and the new text
    put between, so the length grows by the length of the new text. *)
Theorem insert_keeps_existing_text (c : list ascii) (op : Operation) :
  op_type op = Insert ->
  let k := Z.to_nat (JS.relIndex (JS.strlen c) (op_position op)) in
  OT.applyToContent c op = take k c ++ op_content op ++ drop k c
  /\ JS.strlen (OT.applyToContent c op)
     = JS.strlen c + JS.strlen (op_content op).
Proof.
  intros Ht k. unfold OT.applyToContent. rewrite Ht.
  destruct (slice_cut c (op_position op)) as (-> & -> & Hk).
  fold k in Hk |- *. split; [reflexivity |].
  unfold JS.strlen. rewrite !length_app, length_take, length_drop. lia.
Qed.

Lemma insert_keeps_existing_text_witness :
  OT.applyToContent (JS.chars "abc") (mkInsert "i" (-1) "XY" "ann" 0)
  = JS.chars "abXYc"
  /\ JS.strlen
       (OT.applyToContent (JS.chars "abc") (mkInsert "i" (-1) "XY" "ann" 0))
     = 3 + 2.
Proof.
  apply (insert_keeps_existing_text (JS.chars "abc")
           (mkInsert "i" (-1) "XY" "ann" 0)).
  reflexivity.
Defined.

(** X2. Deleting, at the position of an insert made inside the content,
    as many code units as it inserted gives the content back. *)
Theorem insert_then_delete_restores
    (c : list ascii) (ins del : Operation) :
  op_type ins = Insert -> op_type del = Delete ->
  0 <= op_position ins <= JS.strlen c ->
  op_position del = op_position ins ->
  op_length del = JS.strlen (op_content ins) ->
  OT.applyToContent (OT.applyToContent c ins) del = c.
Proof.
  intros Hi Hd Hp Hpd Hld.
  destruct (split_at c (op_position ins) Hp) as (l & k & -> & Hl).
  rewrite (insert_at_boundary _ l k ins) by (reflexivity || congruence).
  apply (delete_at_boundary _ l (op_content ins) k);
    [reflexivity | assumption | congruence | exact Hld].
Qed.

Lemma insert_then_delete_restores_witness :
  OT.applyToContent
    (OT.applyToContent (JS.chars "Hello") (mkInsert "i" 2 "XY" "ann" 0))
    (mkDelete "d" 2 2 "ann" 1)
  = JS.chars "Hello".
Proof.
  apply insert_then_delete_restores;
    [reflexivity | reflexivity | unfold JS.strlen; simpl; lia
    | reflexivity | reflexivity].
Defined.

(** X3. A delete with a position and a length that are not negative
    removes the code units of its range, those from its position up to
    its position plus its length, as far as they lie inside the content,
    and nothing else: what stays is the content before the position
    followed by the content from the end of the range on. At or beyond
    the end it removes nothing. *)
Theorem delete_removes_range_within_content
    (c : list ascii) (op : Operation) :
  op_type op = Delete -> 0 <= op_position op -> 0 <= op_length op ->
  OT.applyToContent c op
  = take (Z.to_nat (op_position op)) c
      ++ drop (Z.to_nat (op_position op + op_length op)) c
  /\ JS.strlen (OT.applyToContent c op)
     = JS.strlen c
       - (Z.min (op_position op + op_length op) (JS.strlen c)
          - Z.min (op_position op) (JS.strlen c))
  /\ (JS.strlen c <= op_position op -> OT.applyToContent c op = c).
Proof.
  intros Ht Hp Hl. rewrite applyToContent_delete by assumption.
  split; [reflexivity |].
  unfold JS.strlen. split.
  - rewrite length_app, length_take, length_drop. lia.
  - intros Hend. rewrite take_ge, drop_ge by lia. apply app_nil_r.
Qed.

Lemma delete_removes_range_within_content_witness :
  OT.applyToContent (JS.chars "abcdef") (mkDelete "d" 1 2 "ann" 0)
  = take (Z.to_nat 1) (JS.chars "abcdef")
      ++ drop (Z.to_nat (1 + 2)) (JS.chars "abcdef")
  /\ JS.strlen (OT.applyToContent (JS.chars "abcdef")
                  (mkDelete "d" 1 2 "ann" 0))
     = 6 - (Z.min (1 + 2) 6 - Z.min 1 6)
  /\ (JS.strlen (JS.chars "abcdef") <= 1 ->
      OT.applyToContent (JS.chars "abcdef") (mkDelete "d" 1 2 "ann" 0)
      = JS.chars "abcdef").
Proof.
  apply (delete_removes_range_within_content (JS.chars "abcdef")
           (mkDelete "d" 1 2 "ann" 0));
    [reflexivity | simpl; lia | simpl; lia].
Defined.

(** X4. The transforms of the service and of the gateway change nothing of
    an operation but its position and its length, and the gateway's never
    changes the length. *)
Theorem transform_changes_only_position_and_length (op1 op2 : Operation) :
  sameEdit (OT.transform op1 op2) op1
  /\ sameEdit (Gateway.transformAgainstOperation op1 op2) op1
  /\ op_length (Gateway.transformAgainstOperation op1 op2) = op_length op1.
Proof.
  unfold sameEdit, OT.transform, Gateway.transformAgainstOperation,
    OT.transformInsertInsert, OT.transformInsertDelete,
    OT.transformDeleteInsert, OT.transformDeleteDelete.
  destruct (op_type op1) eqn:H1, (op_type op2) eqn:H2;
    zcases; simpl; rewrite ?H1; repeat split; reflexivity.
Qed.

(** X5. Transformed against an operation whose position is not negative,
    an operation whose position is not negative keeps a position that is
    not negative. *)
Theorem transform_keeps_position_nonnegative (op1 op2 : Operation) :
  0 <= op_position op1 -> 0 <= op_position op2 ->
  0 <= op_position (OT.transform op1 op2)
  /\ 0 <= op_position (Gateway.transformAgainstOperation op1 op2).
Proof.
  intros Hp1 Hp2.
  unfold OT.transform, Gateway.transformAgainstOperation,
    OT.transformInsertInsert, OT.transformInsertDelete,
    OT.transformDeleteInsert, OT.transformDeleteDelete, JS.strlen.
  destruct (op_type op1), (op_type op2); zcases; simpl; lia.
Qed.

Lemma transform_keeps_position_nonnegative_witness :
  0 <= op_position
         (OT.transform (mkInsert "i" 5 "x" "ann" 0) (mkDelete "d" 1 3 "bob" 0))
  /\ 0 <= op_position
            (Gateway.transformAgainstOperation (mkInsert "i" 5 "x" "ann" 0)
               (mkDelete "d" 1 3 "bob" 0)).
Proof.
  apply transform_keeps_position_nonnegative; simpl; lia.
Defined.

(** X6. Transformed against another delete, a delete never grows and never
    gets a negative length. *)
Theorem transformDeleteDelete_length_bounds (op1 op2 : Operation) :
  0 <= op_length op1 -> 0 <= op_length op2 ->
  0 <= op_length (OT.transformDeleteDelete op1 op2) <= op_length op1.
Proof.
  intros H1 H2. unfold OT.transformDeleteDelete. zcases; simpl; lia.
Qed.

Lemma transformDeleteDelete_length_bounds_witness :
  0 <= op_length
         (OT.transformDeleteDelete (mkDelete "a" 2 3 "ann" 0)
            (mkDelete "b" 1 2 "bob" 0))
    <= 3.
Proof.
  apply (transformDeleteDelete_length_bounds (mkDelete "a" 2 3 "ann" 0)
           (mkDelete "b" 1 2 "bob" 0)); simpl; lia.
Defined.

(** What [validateOperation] accepts. *)
Lemma validateOperation_true (operation : Operation) :
  Gateway.validateOperation operation = true
  <-> op_id operation <> ""
      /\ 0 <= op_position operation
      /\ (op_type operation = Delete -> 0 < op_length operation)
      /\ (op_type operation = Insert -> op_content operation <> []).
Proof.
  unfold Gateway.validateOperation, Gateway.validTypes, JS.strlen.
  destruct (String.eqb_spec (op_id operation) "") as [Hid | Hid].
  { split; [discriminate | intros [H _]; contradiction]. }
  assert (Hty : existsb (OperationType_eqb (op_type operation))
                  [Insert; Delete; Retain; Format] = true)
    by (destruct (op_type operation); reflexivity).
  rewrite Hty. simpl negb. cbv iota.
  destruct (Z.ltb_spec (op_position operation) 0) as [Hneg | Hpos].
  { split; [discriminate | intros (_ & H & _); lia]. }
  destruct (op_type operation); simpl.
  - destruct (op_content operation) as [| a l] eqn:Hc; simpl.
    + split; [discriminate | intros (_ & _ & _ & H); destruct (H eq_refl)].
      reflexivity.
    + split; [| reflexivity]. intros _.
      repeat split; try assumption; discriminate.
  - destruct (Z.leb_spec (op_length operation) 0) as [Hle | Hgt].
    + split; [discriminate | intros (_ & _ & H & _)].
      specialize (H eq_refl). lia.
    + split; [| reflexivity]. intros _.
      repeat split; try assumption; try discriminate. intros _. assumption.
  - split; [| reflexivity]. intros _.
    repeat split; try assumption; discriminate.
  - split; [| reflexivity]. intros _.
    repeat split; try assumption; discriminate.
Qed.

(** X7. The gateway's transform keeps an operation valid: transformed
    against a valid operation, an operation [validateOperation] accepts is
    still one it accepts. *)
Theorem transformAgainstOperation_keeps_valid (op1 op2 : Operation) :
  Gateway.validateOperation op1 = true ->
  Gateway.validateOperation op2 = true ->
  Gateway.validateOperation (Gateway.transformAgainstOperation op1 op2)
  = true.
Proof.
  intros H1 H2.
  apply validateOperation_true in H1 as (Hid & Hp & Hl & Hc).
  apply validateOperation_true in H2 as (_ & Hp2 & _ & _).
  apply validateOperation_true.
  unfold Gateway.transformAgainstOperation, JS.strlen.
  destruct (op_type op1) eqn:E1, (op_type op2) eqn:E2;
    zcases; simpl; rewrite ?E1;
    (split; [exact Hid | split; [lia | split; assumption]]).
Qed.

Lemma transformAgainstOperation_keeps_valid_witness :
  Gateway.validateOperation
    (Gateway.transformAgainstOperation (mkInsert "i" 5 "x" "ann" 0)
       (mkDelete "d" 1 3 "bob" 0))
  = true.
Proof.
  apply transformAgainstOperation_keeps_valid; reflexivity.
Defined.

(** ** The document service, continued *)

(** [areConcurrent] does not depend on the order of its arguments, and
    no operation is concurrent with itself or with a moved copy of
    itself. *)
Theorem areConcurrent_symmetric (op1 op2 : Operation) :
  OT.areConcurrent op1 op2 = OT.areConcurrent op2 op1
  /\ OT.areConcurrent op1 op1 = false
  /\ OT.areConcurrent op1 (withPosition op1 (op_position op2)) = false.
Proof.
  unfold OT.areConcurrent. split; [| split].
  - rewrite (String.eqb_sym (op_userId op1)).
    replace (op_timestamp op2 - op_timestamp op1)
      with (- (op_timestamp op1 - op_timestamp op2)) by lia.
    rewrite Z.abs_opp. reflexivity.
  - rewrite String.eqb_refl. reflexivity.
  - simpl. rewrite String.eqb_refl. reflexivity.
Qed.

(** X8. An operation is applied as submitted when every operation the
    document holds is by its own author or at least a second away from it
    in time: [transformOperation] returns it unchanged. *)
Theorem transformOperation_without_concurrent
    (operation : Operation) (d : OT.DocumentState) :
  Forall
    (fun o =>
       op_userId o = op_userId operation
       \/ 1000 <= Z.abs (op_timestamp operation - op_timestamp o))
    (OT.operations d) ->
  OT.transformOperation operation d = operation.
Proof.
  unfold OT.transformOperation. generalize (OT.operations d).
  intros ops Hops. induction Hops as [| o rest Ho _ IH]; [reflexivity |].
  simpl.
  assert (Hc : OT.areConcurrent operation o = false).
  { unfold OT.areConcurrent. destruct Ho as [Hu | Ht].
    - rewrite Hu, String.eqb_refl. reflexivity.
    - apply andb_false_iff. right. apply Z.ltb_ge. exact Ht. }
  rewrite Hc. exact IH.
Qed.

Lemma transformOperation_without_concurrent_witness :
  OT.transformOperation (mkInsert "i" 3 "x" "ann" 5000)
    (OT.mkDocumentState (JS.chars "abcdef") 2
       [mkInsert "a" 0 "ab" "ann" 4900; mkDelete "b" 1 2 "bob" 100])
  = mkInsert "i" 3 "x" "ann" 5000.
Proof.
  apply transformOperation_without_concurrent.
  constructor; [left; reflexivity |].
  constructor; [right; simpl; lia | constructor].
Defined.

(** The content of a document stays the replay of its operations when
    [applyOperation] returns. *)
Lemma applyAll_replay (entityId : string) (initial : list ascii)
    (ops : list Operation) :
  forall (s : OT.Service) (d : OT.DocumentState),
    OT.documentStates s !! entityId = Some d ->
    OT.content d = replay initial (OT.operations d) ->
    exists s' d',
      OT.applyAll entityId ops s = Some s'
      /\ OT.documentStates s' !! entityId = Some d'
      /\ OT.content d' = replay initial (OT.operations d').
Proof.
  induction ops as [| operation rest IH]; intros s d Hd Hreplay.
  - exists s, d. repeat split; assumption.
  - destruct (applyOperation_returns entityId operation s d Hd)
      as (s1 & d1 & r & Hrun & Hd1 & Hc & _ & Hops & _).
    destruct (IH s1 d1 Hd1) as (s' & d' & Hall & Hd' & Hr').
    { rewrite Hc, Hops. unfold replay. rewrite fold_left_app. simpl.
      f_equal. exact Hreplay. }
    exists s', d'. simpl OT.applyAll. rewrite Hrun.
    repeat split; assumption.
Qed.

(** X9. The content of a document is the replay of the operations it
    holds on the content it was initialized with: after
    [initializeDocument] and any run of [applyOperation] calls that
    return, applying the stored operations in order to the initial content
    gives the current content. *)
Theorem content_is_replay_of_operations
    (entityId : string) (initial : list ascii) (s : OT.Service)
    (ops : list Operation) :
  exists (s' : OT.Service) (d : OT.DocumentState),
    OT.applyAll entityId ops (OT.initializeDocument entityId initial s)
    = Some s'
    /\ OT.documentStates s' !! entityId = Some d
    /\ OT.content d = replay initial (OT.operations d).
Proof.
  apply (applyAll_replay entityId initial ops
           (OT.initializeDocument entityId initial s)
           (OT.mkDocumentState initial 0 [])).
  - unfold OT.initializeDocument. simpl. apply lookup_insert_eq.
  - reflexivity.
Qed.

(** X10. [applyOperation] for one entity leaves the documents of all other
    entities as they are, whether it returns or throws, and persists rows
    for no other entity. *)
Theorem applyOperation_touches_one_entity
    (entityId other : string) (operation : Operation) (persistFails : bool)
    (s : OT.Service) :
  entityId <> other ->
  let s' := fst (OT.applyOperation entityId operation persistFails s) in
  OT.documentStates s' !! other = OT.documentStates s !! other
  /\ List.filter (fun row => String.eqb (fst row) other) (OT.persisted s')
     = List.filter (fun row => String.eqb (fst row) other) (OT.persisted s).
Proof.
  intros Hne. unfold OT.applyOperation.
  destruct (OT.documentStates s !! entityId) as [d |]; [| split; reflexivity].
  destruct persistFails; simpl.
  - split; [apply lookup_insert_ne; exact Hne | reflexivity].
  - split; [apply lookup_insert_ne; exact Hne |].
    rewrite List.filter_app. simpl.
    destruct (String.eqb_spec entityId other); [contradiction |].
    apply app_nil_r.
Qed.

Lemma applyOperation_touches_one_entity_witness :
  let s :=
    OT.initializeDocument "1" (JS.chars "ab")
      (OT.initializeDocument "2" (JS.chars "cd") (OT.mkService ∅ [])) in
  let s' :=
    fst (OT.applyOperation "1" (mkInsert "i" 0 "x" "ann" 0) false s) in
  OT.documentStates s' !! "2" = OT.documentStates s !! "2"
  /\ List.filter (fun row => String.eqb (fst row) "2") (OT.persisted s')
     = List.filter (fun row => String.eqb (fst row) "2") (OT.persisted s).
Proof.
  intros s.
  apply (applyOperation_touches_one_entity "1" "2"). discriminate.
Defined.

(** ** The gateway, continued *)

(** X11. An operation with an empty id, a negative position, a delete
    without a positive length or an insert without content never reaches
    [applyOperation]: whatever the Redis and database calls would do, the
    sender gets ['Invalid operation'], nothing else is emitted and the
    store is as before. *)
Theorem malformed_operation_is_rejected
    (data : Gateway.OperationData) (operation : Operation)
    (f : Gateway.Faults) (st : Gateway.Store) :
  Gateway.od_entityType data <> "" ->
  Gateway.od_entityId data <> "" ->
  Gateway.od_operation data = Some operation ->
  op_id operation = "" \/ op_position operation < 0
  \/ (op_type operation = Delete /\ op_length operation <= 0)
  \/ (op_type operation = Insert /\ op_content operation = []) ->
  Gateway.onOperationSend data f st
  = (st,
     [Gateway.ToSender
        (Gateway.OperationError (op_id operation) "Invalid operation")]).
Proof.
  intros Ht Hi Hop Hbad.
  assert (Hinvalid : Gateway.validateOperation operation = false).
  { destruct (Gateway.validateOperation operation) eqn:Hv; [| reflexivity].
    apply validateOperation_true in Hv as (Hid & Hp & Hl & Hc).
    destruct Hbad as [Hb | [Hb | [[Hb Hb'] | [Hb Hb']]]].
    - contradiction.
    - lia.
    - specialize (Hl Hb). lia.
    - destruct (Hc Hb Hb'). }
  unfold Gateway.onOperationSend.
  rewrite (eqb_empty_false _ Ht), (eqb_empty_false _ Hi), Hop, Hinvalid.
  reflexivity.
Qed.

Lemma malformed_operation_is_rejected_witness :
  Gateway.onOperationSend
    (Gateway.mkOperationData "task" "42" (Some (mkDelete "d" 3 0 "ann" 0)) 0)
    (Gateway.mkFaults false true true false) (Gateway.mkStore ∅ [])
  = (Gateway.mkStore ∅ [],
     [Gateway.ToSender (Gateway.OperationError "d" "Invalid operation")]).
Proof.
  apply (malformed_operation_is_rejected
           (Gateway.mkOperationData "task" "42"
              (Some (mkDelete "d" 3 0 "ann" 0)) 0)
           (mkDelete "d" 3 0 "ann" 0));
    [discriminate | discriminate | reflexivity |].
  right. right. left. split; [reflexivity | simpl; lia].
Defined.

(** One submission whose write of the version throws: the store is as
    before, and what is emitted is an error to the sender or nothing. *)
Lemma onOperationSend_write_throws (data : Gateway.OperationData)
    (f : Gateway.Faults) (st : Gateway.Store) :
  Gateway.setFails f = true ->
  fst (Gateway.onOperationSend data f st) = st
  /\ Forall (fun e => Gateway.isSenderError e = true)
       (snd (Gateway.onOperationSend data f st)).
Proof.
  intros Hset. unfold Gateway.onOperationSend, Gateway.applyOperation.
  rewrite Hset.
  destruct (String.eqb (Gateway.od_entityType data) ""
            || String.eqb (Gateway.od_entityId data) "");
    [split; [reflexivity | constructor] |].
  destruct (Gateway.od_operation data) as [operation |];
    [| split; [reflexivity | constructor]].
  destruct (negb (Gateway.validateOperation operation));
    [split; [reflexivity | repeat constructor] |].
  destruct (negb (Gateway.od_version data =? _));
    (split; [reflexivity | repeat constructor]).
Qed.

(** X12. When the write of the version throws on every submission, as it
    does with the code as it is written, no run of submissions changes the
    store, nothing is broadcast or acknowledged, and every valid
    submission of the run is answered with
    ['Failed to process operation']. *)
Theorem submissions_fail_when_write_throws
    (requests : list (Gateway.OperationData * Gateway.Faults))
    (st : Gateway.Store) :
  Forall (fun r => Gateway.setFails (snd r) = true) requests ->
  let result := submitAll requests st in
  fst result = st
  /\ Forall (fun e => Gateway.isSenderError e = true) (snd result)
  /\ (forall data f operation,
        In (data, f) requests ->
        Gateway.od_entityType data <> "" ->
        Gateway.od_entityId data <> "" ->
        Gateway.od_operation data = Some operation ->
        Gateway.validateOperation operation = true ->
        In (Gateway.ToSender
              (Gateway.OperationError (op_id operation)
                 "Failed to process operation"))
           (snd result)).
Proof.
  intros Hall result. subst result.
  induction Hall as [| [data f] rest Hset _ IH]; cbn [submitAll].
  - repeat split; [constructor | intros ? ? ? []].
  - cbn [snd] in Hset.
    destruct (onOperationSend_write_throws data f st Hset) as [Hst Hemitted].
    pose proof (fun operation =>
                  failed_apply_reports_to_sender data operation f st)
      as Hreport.
    destruct (Gateway.onOperationSend data f st) as [st1 emitted].
    cbn [fst snd] in Hst, Hemitted, Hreport. subst st1.
    destruct (submitAll rest st) as [st2 emitted'].
    cbn [fst snd] in IH |- *. destruct IH as (Hst2 & Hrest & Hvalid).
    split; [exact Hst2 |]. split.
    + apply Forall_app. split; assumption.
    + intros data' f' operation [Heq | Hin] Ht Hi Hop Hok;
        apply in_or_app.
      * injection Heq as <- <-. left.
        rewrite (Hreport operation Ht Hi Hop Hok);
          [left; reflexivity | rewrite Hset; reflexivity].
      * right. apply (Hvalid data' f' operation); assumption.
Qed.

Lemma submissions_fail_when_write_throws_witness :
  let a := mkInsert "a" 0 "x" "ann" 10 in
  let b := mkDelete "b" 0 1 "bob" 20 in
  let st := Gateway.mkStore {[ "version:task:42" := 7 ]} [] in
  let result :=
    submitAll
      [(Gateway.mkOperationData "task" "42" (Some a) 7, Gateway.asWritten);
       (Gateway.mkOperationData "task" "42" (Some b) 8, Gateway.asWritten)]
      st in
  fst result = st
  /\ Forall (fun e => Gateway.isSenderError e = true) (snd result)
  /\ In (Gateway.ToSender
           (Gateway.OperationError "b" "Failed to process operation"))
        (snd result).
Proof.
  intros a b st.
  destruct (submissions_fail_when_write_throws
              [(Gateway.mkOperationData "task" "42" (Some a) 7,
                Gateway.asWritten);
               (Gateway.mkOperationData "task" "42" (Some b) 8,
                Gateway.asWritten)]
              st)
    as (Hst & Herr & Hvalid).
  - repeat constructor.
  - split; [exact Hst |]. split; [exact Herr |].
    apply (Hvalid (Gateway.mkOperationData "task" "42" (Some b) 8)
             Gateway.asWritten b);
      [right; left; reflexivity | discriminate | discriminate | reflexivity
      | reflexivity].
Defined.

(** What one submission does to the operation table: nothing, or one row
    more, with a valid operation under its own author and type. *)
Lemma onOperationSend_table (data : Gateway.OperationData)
    (f : Gateway.Faults) (st : Gateway.Store) :
  Gateway.operationTable (fst (Gateway.onOperationSend data f st))
  = Gateway.operationTable st
  \/ exists row,
       rowOk row
       /\ Gateway.operationTable (fst (Gateway.onOperationSend data f st))
          = Gateway.operationTable st ++ [row].
Proof.
  unfold Gateway.onOperationSend, Gateway.applyOperation.
  destruct (String.eqb (Gateway.od_entityType data) ""
            || String.eqb (Gateway.od_entityId data) "");
    [left; reflexivity |].
  destruct (Gateway.od_operation data) as [operation |];
    [| left; reflexivity].
  destruct (Gateway.validateOperation operation) eqn:Hvalid;
    [| left; reflexivity].
  cbn [negb].
  destruct (negb (Gateway.od_version data =? _));
    destruct (Gateway.setFails f), (Gateway.createFails f);
    cbn [fst Gateway.operationTable];
    first [left; reflexivity
          | right; eexists; split; [| reflexivity];
            repeat split; exact Hvalid].
Qed.

(** X14. Every row a run of submissions adds to the operation table holds
    an operation [validateOperation] accepts, stored under the author and
    the type of that operation, whatever is submitted and whichever
    Redis and database calls throw. *)
Theorem stored_rows_hold_valid_operations
    (requests : list (Gateway.OperationData * Gateway.Faults))
    (st : Gateway.Store) :
  Forall rowOk (Gateway.operationTable st) ->
  Forall rowOk (Gateway.operationTable (fst (submitAll requests st))).
Proof.
  revert st. induction requests as [| [data f] rest IH]; intros st Hst;
    [exact Hst |].
  cbn [submitAll].
  destruct (Gateway.onOperationSend data f st) as [st1 emitted] eqn:Hstep.
  specialize (IH st1).
  destruct (submitAll rest st1) as [st2 emitted'].
  cbn [fst] in IH |- *. apply IH.
  pose proof (onOperationSend_table data f st) as Htable.
  rewrite Hstep in Htable. cbn [fst] in Htable.
  destruct Htable as [-> | (row & Hrow & ->)]; [exact Hst |].
  apply Forall_app. split; [exact Hst |]. constructor; [exact Hrow |].
  constructor.
Qed.

Lemma stored_rows_hold_valid_operations_witness :
  Forall rowOk
    (Gateway.operationTable
       (fst
          (submitAll
             [(Gateway.mkOperationData "task" "42"
                 (Some (mkInsert "a" 0 "x" "ann" 10)) 0, Gateway.noFaults);
              (Gateway.mkOperationData "task" "42"
                 (Some (mkDelete "d" 0 0 "bob" 20)) 1, Gateway.noFaults)]
             (Gateway.mkStore ∅ [])))).
Proof.
  apply stored_rows_hold_valid_operations. constructor.
Defined.

(** X16. A submission writes no Redis key but the version key of its own
    entity, whatever is submitted and whichever calls throw. *)
Theorem submission_writes_one_version_key
    (data : Gateway.OperationData) (f : Gateway.Faults) (st : Gateway.Store)
    (key : string) :
  key
  <> Gateway.versionKey (Gateway.od_entityType data)
       (Gateway.od_entityId data) ->
  Gateway.redis (fst (Gateway.onOperationSend data f st)) !! key
  = Gateway.redis st !! key.
Proof.
  intros Hne. unfold Gateway.onOperationSend, Gateway.applyOperation.
  destruct (String.eqb (Gateway.od_entityType data) ""
            || String.eqb (Gateway.od_entityId data) ""); [reflexivity |].
  destruct (Gateway.od_operation data) as [operation |]; [| reflexivity].
  destruct (negb (Gateway.validateOperation operation)); [reflexivity |].
  destruct (negb (Gateway.od_version data =? _));
    destruct (Gateway.setFails f), (Gateway.createFails f);
    cbn [fst Gateway.redis]; try reflexivity;
    apply lookup_insert_ne; congruence.
Qed.

Lemma submission_writes_one_version_key_witness :
  let st := Gateway.mkStore {[ "version:task:7" := 3 ]} [] in
  Gateway.redis
    (fst
       (Gateway.onOperationSend
          (Gateway.mkOperationData "task" "42"
             (Some (mkInsert "a" 0 "x" "ann" 10)) 0)
          Gateway.noFaults st))
  !! "version:task:7"
  = Gateway.redis st !! "version:task:7".
Proof.
  intros st.
  apply (submission_writes_one_version_key
           (Gateway.mkOperationData "task" "42"
              (Some (mkInsert "a" 0 "x" "ann" 10)) 0)
           Gateway.noFaults st "version:task:7").
  discriminate.
Defined.

(** ** The colour of a user *)

(** A 32-bit integer is within 2^31 of zero. *)
Lemma toInt32_range (x : Z) : - 2 ^ 31 <= Color.toInt32 x < 2 ^ 31.
Proof.
  unfold Color.toInt32.
  pose proof (Z.mod_pos_bound (x + 2 ^ 31) (2 ^ 32) ltac:(lia)). lia.
Qed.

(** The code of a character is a byte. *)
Lemma charCode_range (c : ascii) : 0 <= Color.charCode c < 256.
Proof.
  unfold Color.charCode.
  pose proof (N_ascii_bounded c). lia.
Qed.

(** Each character moves the hash by less than 2^32. *)
Lemma hash_fold_bound (l : list ascii) :
  forall h : Z,
    Z.abs (fold_left Color.step l h)
    <= Z.abs h + Z.of_nat (List.length l) * 2 ^ 32.
Proof.
  induction l as [| c rest IH]; intros h; [simpl; lia |].
  cbn [fold_left List.length]. specialize (IH (Color.step h c)).
  assert (Hstep : Z.abs (Color.step h c) <= Z.abs h + 2 ^ 32).
  { unfold Color.step, Color.shiftLeft5.
    pose proof (toInt32_range (Z.shiftl (Color.toInt32 h) 5)).
    pose proof (charCode_range c). lia. }
  lia.
Qed.

(** X17. [getUserColor] gives every user id, the empty one too, one of
    the sixteen colours of the palette, never [undefined]. *)
Theorem getUserColor_in_palette (userId : string) :
  exists colour : string,
    Color.getUserColor userId = Some colour /\ In colour Color.colors.
Proof.
  unfold Color.getUserColor.
  assert (Hlt : (Z.to_nat
                   (Z.abs (Color.hashOf userId)
                    mod Z.of_nat (List.length Color.colors))
                 < List.length Color.colors)%nat).
  { pose proof (Z.mod_pos_bound (Z.abs (Color.hashOf userId))
                  (Z.of_nat (List.length Color.colors))) as Hm.
    simpl List.length in *. lia. }
  apply lookup_lt_is_Some_2 in Hlt as [colour Hc].
  exists colour. split; [exact Hc |].
  apply list_elem_of_In. eapply list_elem_of_lookup_2. exact Hc.
Qed.

(** The hash of a user id of n characters is at most n * 2^32 in
    magnitude, so up to 2^21 characters it stays within the 2^53 below
    which the numbers of JavaScript are exact integers. *)
Theorem hash_stays_exact (userId : string) :
  Z.of_nat (String.length userId) <= 2 ^ 21 ->
  Z.abs (Color.hashOf userId) <= Z.of_nat (String.length userId) * 2 ^ 32
  /\ Z.abs (Color.hashOf userId) <= 2 ^ 53.
Proof.
  intros Hlen. unfold Color.hashOf.
  pose proof (hash_fold_bound (String.list_ascii_of_string userId) 0) as H.
  assert (Hl : List.length (String.list_ascii_of_string userId)
               = String.length userId).
  { clear. induction userId as [| c rest IH]; [reflexivity |].
    simpl. f_equal. exact IH. }
  rewrite Hl in H. simpl Z.abs in H. split; [lia | nia].
Qed.

Lemma hash_stays_exact_witness :
  Z.abs (Color.hashOf "user-42") <= Z.of_nat (String.length "user-42") * 2 ^ 32
  /\ Z.abs (Color.hashOf "user-42") <= 2 ^ 53.
Proof.
  apply hash_stays_exact. vm_compute. discriminate.
Defined.

(** ** Rooms *)

(** Removing the first occurrence of a room keeps every other room. *)
Lemma removeFirst_other (room r : string) (l : list string) :
  r <> room -> In r l -> In r (Conn.removeFirst room l).
Proof.
  intros Hne. induction l as [| x rest IH]; [intros [] |].
  simpl. intros [-> | Hin].
  - destruct (String.eqb_spec r room); [contradiction | left; reflexivity].
  - destruct (String.eqb x room); [exact Hin | right; apply IH; exact Hin].
Qed.

(** A room added last and removed again, when it was not listed. *)
Lemma removeFirst_app_new (room : string) (l : list string) :
  ~ In room l -> Conn.removeFirst room (l ++ [room]) = l.
Proof.
  induction l as [| x rest IH]; intros Hnot; simpl.
  - rewrite String.eqb_refl. reflexivity.
  - destruct (String.eqb_spec x room) as [-> | Hne].
    + destruct Hnot. left. reflexivity.
    + f_equal. apply IH. intros Hin. apply Hnot. right. exact Hin.
Qed.

(** Every handler keeps the rooms socket.io has the socket in among the
    listed ones. *)
Lemma handle_joined_listed (now : Z) (redisOk : bool)
    (request : Conn.Request) (s : Conn.Socket) (sessions : Conn.Sessions) :
  Conn.joined s ⊆ list_to_set (Conn.rooms s) ->
  Conn.joined (fst (fst (Conn.handle now redisOk request s sessions)))
  ⊆ list_to_set
      (Conn.rooms (fst (fst (Conn.handle now redisOk request s sessions)))).
Proof.
  intros Hinv.
  assert (Hjoin : forall room,
    {[ room ]} ∪ Conn.joined s
    ⊆ (list_to_set (Conn.rooms s ++ [room]) : gset string)).
  { intros room r Hr. apply elem_of_list_to_set. apply list_elem_of_In.
    apply in_or_app. apply elem_of_union in Hr as [Hr | Hr].
    - right. left. apply elem_of_singleton in Hr. symmetry. exact Hr.
    - left. apply list_elem_of_In.
      apply (proj1 (elem_of_list_to_set (C := gset string) r (Conn.rooms s))).
      apply Hinv. exact Hr. }
  assert (Hleave : forall room,
    Conn.joined s ∖ {[ room ]}
    ⊆ (list_to_set (Conn.removeFirst room (Conn.rooms s)) : gset string)).
  { intros room r Hr. apply elem_of_difference in Hr as [Hr Hne].
    apply elem_of_list_to_set. apply list_elem_of_In.
    apply removeFirst_other;
      [intros ->; apply Hne; apply elem_of_singleton; reflexivity |].
    apply list_elem_of_In.
    apply (proj1 (elem_of_list_to_set (C := gset string) r (Conn.rooms s))).
    apply Hinv. exact Hr. }
  destruct request as [w | w | t e | t e | t e status cursor];
    unfold Conn.handle, Conn.joinWorkspace, Conn.leaveWorkspace,
      Conn.joinEntity, Conn.leaveEntity, Conn.presenceUpdate.
  - destruct (String.eqb w ""); simpl; [exact Hinv | apply Hjoin].
  - destruct (String.eqb w ""); simpl; [exact Hinv | apply Hleave].
  - destruct (String.eqb t "" || String.eqb e ""); simpl;
      [exact Hinv | apply Hjoin].
  - destruct (String.eqb t "" || String.eqb e ""); simpl;
      [exact Hinv | apply Hleave].
  - destruct (String.eqb t "" || String.eqb e ""); simpl; exact Hinv.
Qed.

(** X18. Whatever a connection has requested since it was opened, every
    room socket.io has the socket in is in its list of rooms, so the
    disconnect handler sends ['user:disconnected'] to every room the
    socket is in. *)
Theorem disconnect_notifies_every_joined_room
    (requests : list (Z * bool * Conn.Request)) (u : Conn.User)
    (sessions : Conn.Sessions) (glob : string -> string -> bool)
    (redisOk : bool) :
  let after := Conn.handleAll requests (Conn.connect u) sessions in
  let s := fst (fst after) in
  Conn.joined s ⊆ list_to_set (Conn.rooms s)
  /\ map Conn.toRoom (snd (Conn.disconnect glob redisOk s (snd (fst after))))
     = Conn.rooms s
  /\ Forall
       (fun e => Conn.notice e = Conn.UserDisconnected (Conn.u_id u))
       (snd (Conn.disconnect glob redisOk s (snd (fst after)))).
Proof.
  intros after s.
  assert (Hrun : forall requests s0 sessions0,
    Conn.joined s0 ⊆ list_to_set (Conn.rooms s0) ->
    Conn.joined (fst (fst (Conn.handleAll requests s0 sessions0)))
    ⊆ list_to_set
        (Conn.rooms (fst (fst (Conn.handleAll requests s0 sessions0))))
    /\ Conn.user (fst (fst (Conn.handleAll requests s0 sessions0)))
       = Conn.user s0).
  { clear. induction requests as [| [[now ok] request] rest IH];
      intros s0 sessions0 Hinv; [split; [exact Hinv | reflexivity] |].
    cbn [Conn.handleAll].
    pose proof (handle_joined_listed now ok request s0 sessions0 Hinv) as H1.
    assert (Hu : Conn.user (fst (fst (Conn.handle now ok request s0 sessions0)))
                 = Conn.user s0).
    { destruct request; unfold Conn.handle, Conn.joinWorkspace,
        Conn.leaveWorkspace, Conn.joinEntity, Conn.leaveEntity,
        Conn.presenceUpdate;
        repeat match goal with
          | |- context [if ?b then _ else _] => destruct b
          end; reflexivity. }
    destruct (Conn.handle now ok request s0 sessions0)
      as [[s1 sessions1] emitted].
    cbn [fst] in H1, Hu. specialize (IH s1 sessions1 H1).
    destruct (Conn.handleAll rest s1 sessions1) as [[s2 sessions2] emitted'].
    cbn [fst] in IH |- *. destruct IH as [IH1 IH2].
    split; [exact IH1 | congruence]. }
  destruct (Hrun requests (Conn.connect u) sessions) as [Hinv Hu].
  { intros r Hr. unfold Conn.connect in Hr |- *.
    cbn [Conn.joined Conn.rooms] in Hr |- *.
    apply elem_of_singleton in Hr. subst r.
    apply elem_of_list_to_set. apply list_elem_of_In. left. reflexivity. }
  fold after in Hinv, Hu. fold s in Hinv, Hu.
  split; [exact Hinv |]. unfold Conn.disconnect. cbn [snd]. split.
  - rewrite map_map. simpl. apply map_id.
  - apply Forall_map. simpl. rewrite Hu. simpl.
    apply Forall_forall. intros; reflexivity.
Qed.

(** X19. Leaving a workspace right after joining it puts the socket back
    as it was, when the room was neither listed nor joined before. *)
Theorem join_then_leave_workspace_restores
    (workspaceId : string) (s : Conn.Socket) :
  workspaceId <> "" ->
  ~ In (Conn.workspaceRoom workspaceId) (Conn.rooms s) ->
  (Conn.workspaceRoom workspaceId ∉ Conn.joined s) ->
  fst (Conn.leaveWorkspace workspaceId
         (fst (Conn.joinWorkspace workspaceId s)))
  = s.
Proof.
  intros Hw Hlist Hjoined.
  unfold Conn.joinWorkspace, Conn.leaveWorkspace.
  rewrite (eqb_empty_false _ Hw). cbn [fst Conn.user Conn.rooms Conn.joined].
  rewrite removeFirst_app_new by exact Hlist.
  destruct s as [u rooms joined]. cbn [Conn.user Conn.rooms Conn.joined] in *.
  f_equal. apply set_eq. intros r. split.
  - intros H. apply elem_of_difference in H as [H Hne].
    apply elem_of_union in H as [H | H]; [contradiction | exact H].
  - intros Hr. apply elem_of_difference.
    split; [apply elem_of_union; right; exact Hr |].
    intros H. apply elem_of_singleton in H. subst r. contradiction.
Qed.

Lemma join_then_leave_workspace_restores_witness :
  let s := Conn.connect (Conn.mkUser "u1" "ann@example.com" "Ann" "Lee") in
  fst (Conn.leaveWorkspace "w1" (fst (Conn.joinWorkspace "w1" s))) = s.
Proof.
  intros s. apply join_then_leave_workspace_restores.
  - discriminate.
  - simpl. intros [H | []]. discriminate H.
  - unfold s, Conn.connect. cbn [Conn.joined].
    intros H. apply elem_of_singleton in H. discriminate H.
Defined.

(** X20. A socket that joins a workspace twice and leaves it once is out
    of the room for socket.io but still has it in its list, so the
    disconnect handler will notify a room the socket has left. *)
Theorem double_join_single_leave (workspaceId : string) (s : Conn.Socket) :
  workspaceId <> "" ->
  let room := Conn.workspaceRoom workspaceId in
  let s' :=
    fst (Conn.leaveWorkspace workspaceId
           (fst (Conn.joinWorkspace workspaceId
                   (fst (Conn.joinWorkspace workspaceId s))))) in
  (room ∉ Conn.joined s') /\ In room (Conn.rooms s').
Proof.
  intros Hw room s'. subst s'.
  unfold Conn.joinWorkspace, Conn.leaveWorkspace.
  rewrite (eqb_empty_false _ Hw). cbn [fst Conn.user Conn.rooms Conn.joined].
  fold room. clearbody room. split.
  - intros H. apply elem_of_difference in H as [_ H]. apply H.
    apply elem_of_singleton. reflexivity.
  - generalize (Conn.rooms s). intros l.
    induction l as [| x rest IH]; simpl.
    + rewrite String.eqb_refl. apply in_eq.
    + destruct (String.eqb x room).
      * apply in_or_app. right. apply in_eq.
      * right. exact IH.
Qed.

Lemma double_join_single_leave_witness :
  let s := Conn.connect (Conn.mkUser "u1" "ann@example.com" "Ann" "Lee") in
  let s' :=
    fst (Conn.leaveWorkspace "w1"
           (fst (Conn.joinWorkspace "w1" (fst (Conn.joinWorkspace "w1" s)))))
  in
  (Conn.workspaceRoom "w1" ∉ Conn.joined s')
  /\ In (Conn.workspaceRoom "w1") (Conn.rooms s').
Proof.
  intros s. apply (double_join_single_leave "w1" s). discriminate.
Defined.

(** X21. The rooms of entities and the personal rooms share one space of
    names, and ['join:entity'] checks neither: asked for the entity type
    ["user"] and the id of any user, it puts the socket into the personal
    room of that user. *)
Theorem join_entity_enters_personal_room
    (now : Z) (redisOk : bool) (other : string) (s : Conn.Socket)
    (sessions : Conn.Sessions) :
  other <> "" ->
  let s' := fst (fst (Conn.joinEntity now redisOk "user" other s sessions)) in
  Conn.userRoom other ∈ Conn.joined s'
  /\ In (Conn.userRoom other) (Conn.rooms s').
Proof.
  intros Ho s'. subst s'. unfold Conn.joinEntity.
  rewrite (eqb_empty_false _ Ho).
  cbn [String.eqb Ascii.eqb orb fst Conn.joined Conn.rooms].
  change (Conn.entityRoom "user" other) with (Conn.userRoom other).
  split.
  - apply elem_of_union. left. apply elem_of_singleton. reflexivity.
  - apply in_or_app. right. left. reflexivity.
Qed.

Lemma join_entity_enters_personal_room_witness :
  let s := Conn.connect (Conn.mkUser "u1" "ann@example.com" "Ann" "Lee") in
  let s' := fst (fst (Conn.joinEntity 0 true "user" "u2" s ∅)) in
  Conn.userRoom "u2" ∈ Conn.joined s' /\ In (Conn.userRoom "u2") (Conn.rooms s').
Proof.
  intros s. apply (join_entity_enters_personal_room 0 true "u2" s ∅).
  discriminate.
Defined.

(** ** Presence in the gateway *)

(** X22. With the Redis calls succeeding, ['join:entity'] stores the
    presence of the user as ["viewing"] for 300 seconds and
    ['leave:entity'] deletes that very key; when the key was free before
    the join, the sessions are back as they were. Neither handler sends
    anything. *)
Theorem join_then_leave_entity_clears_presence
    (now : Z) (entityType entityId : string) (s : Conn.Socket)
    (sessions : Conn.Sessions) :
  entityType <> "" -> entityId <> "" ->
  let key :=
    Conn.sessionKey
      (Conn.presenceKey entityType entityId (Conn.u_id (Conn.user s))) in
  let joined := Conn.joinEntity now true entityType entityId s sessions in
  let left :=
    Conn.leaveEntity true entityType entityId (fst (fst joined))
      (snd (fst joined)) in
  (exists data,
     snd (fst joined) !! key = Some (data, 300)
     /\ Conn.pd_status data = "viewing"
     /\ Conn.pd_userId data = Conn.u_id (Conn.user s))
  /\ snd (fst left) !! key = None
  /\ snd (fst left) = delete key sessions
  /\ snd joined = [] /\ snd left = [].
Proof.
  intros Ht Hi key joined left. subst joined left.
  unfold Conn.joinEntity, Conn.leaveEntity.
  rewrite (eqb_empty_false _ Ht), (eqb_empty_false _ Hi).
  cbn [orb fst snd]. unfold Conn.updatePresence, Conn.removePresence.
  cbn [Conn.user]. fold key. split; [| split; [| split]].
  - eexists. split; [apply lookup_insert_eq |]. split; reflexivity.
  - apply lookup_delete_eq.
  - apply delete_insert_eq.
  - split; reflexivity.
Qed.

Lemma join_then_leave_entity_clears_presence_witness :
  let s := Conn.connect (Conn.mkUser "u1" "ann@example.com" "Ann" "Lee") in
  let key := Conn.sessionKey (Conn.presenceKey "task" "42" "u1") in
  let joined := Conn.joinEntity 1000 true "task" "42" s ∅ in
  let left :=
    Conn.leaveEntity true "task" "42" (fst (fst joined)) (snd (fst joined)) in
  (exists data,
     snd (fst joined) !! key = Some (data, 300)
     /\ Conn.pd_status data = "viewing"
     /\ Conn.pd_userId data = "u1")
  /\ snd (fst left) !! key = None
  /\ snd (fst left) = delete key ∅
  /\ snd joined = [] /\ snd left = [].
Proof.
  intros s.
  apply (join_then_leave_entity_clears_presence 1000 "task" "42" s ∅);
    discriminate.
Defined.

(** X23. The disconnect handler removes no presence that [updatePresence]
    has stored: [cacheUserSession] writes under ["session:presence:..."],
    the cleanup asks Redis for the keys that match ["presence:*:<user>"],
    and a pattern that starts with a plain [p] matches no key that starts
    with [s]. *)
Theorem disconnect_leaves_stored_presence
    (glob : string -> string -> bool) (now : Z) (redisOk : bool)
    (entityType entityId status : string) (cursor : option (Z * Z))
    (s : Conn.Socket) (sessions : Conn.Sessions) :
  (forall pattern key c,
     glob (String "p" pattern) (String c key) = true -> c = "p"%char) ->
  let key :=
    Conn.sessionKey
      (Conn.presenceKey entityType entityId (Conn.u_id (Conn.user s))) in
  let stored :=
    Conn.updatePresence now true s entityType entityId status cursor
      sessions in
  exists data,
    stored !! key = Some (data, 300)
    /\ fst (Conn.disconnect glob redisOk s stored) !! key = Some (data, 300).
Proof.
  intros Hglob key stored. subst stored.
  unfold Conn.updatePresence, Conn.disconnect, Conn.cleanupPresence.
  fold key. eexists. split; [apply lookup_insert_eq |].
  cbn [fst]. destruct redisOk; [| apply lookup_insert_eq].
  apply map_lookup_filter_Some. split; [apply lookup_insert_eq |].
  cbn [fst]. destruct (glob _ key) eqn:Hmatch; [| reflexivity].
  apply Hglob in Hmatch. discriminate Hmatch.
Qed.

(** The matching on [*] alone is one where a pattern that starts with a
    plain [p] matches only keys that start with [p]. *)
Lemma starGlob_plain_head (pattern key : string) (c : ascii) :
  Conn.starGlob (String "p" pattern) (String c key) = true -> c = "p"%char.
Proof.
  cbn [Conn.starGlob]. change (Ascii.eqb "p" "*") with false. cbv iota.
  intros H. apply andb_prop in H as [H _].
  symmetry. apply Ascii.eqb_eq. exact H.
Qed.

Lemma disconnect_leaves_stored_presence_witness :
  let s := Conn.connect (Conn.mkUser "u1" "ann@example.com" "Ann" "Lee") in
  let key := Conn.sessionKey (Conn.presenceKey "task" "42" "u1") in
  let stored := Conn.updatePresence 1000 true s "task" "42" "editing" None ∅ in
  exists data,
    stored !! key = Some (data, 300)
    /\ fst (Conn.disconnect Conn.starGlob true s stored) !! key
       = Some (data, 300).
Proof.
  intros s.
  apply (disconnect_leaves_stored_presence Conn.starGlob 1000 true "task" "42"
           "editing" None s ∅).
  exact starGlob_plain_head.
Defined.

(** X24. ['presence:update'] sends exactly one ['presence:updated'] to the
    room of the entity, with the status and the cursor it was given and no
    avatar, also when the Redis write throws and nothing is stored. *)
Theorem presence_update_broadcasts_once
    (now : Z) (redisOk : bool) (entityType entityId status : string)
    (cursor : option (Z * Z)) (s : Conn.Socket) (sessions : Conn.Sessions) :
  entityType <> "" -> entityId <> "" ->
  let result :=
    Conn.presenceUpdate now redisOk entityType entityId status cursor s
      sessions in
  (exists data,
     snd result
     = [Conn.mkEmit (Conn.entityRoom entityType entityId)
          (Conn.PresenceUpdated data)]
     /\ Conn.pd_userId data = Conn.u_id (Conn.user s)
     /\ Conn.pd_status data = status
     /\ Conn.pd_cursorPosition data = cursor
     /\ Conn.pd_userAvatar data = None)
  /\ fst (fst result) = s
  /\ (if redisOk then True else snd (fst result) = sessions).
Proof.
  intros Ht Hi result. subst result. unfold Conn.presenceUpdate.
  rewrite (eqb_empty_false _ Ht), (eqb_empty_false _ Hi).
  cbn [orb fst snd]. split; [| split; [reflexivity |]].
  - eexists. split; [reflexivity |]. repeat split.
  - unfold Conn.updatePresence. destruct redisOk; [exact I | reflexivity].
Qed.

Lemma presence_update_broadcasts_once_witness :
  let s := Conn.connect (Conn.mkUser "u1" "ann@example.com" "Ann" "Lee") in
  let result :=
    Conn.presenceUpdate 1000 false "task" "42" "editing" (Some (3, 7)) s ∅ in
  (exists data,
     snd result
     = [Conn.mkEmit (Conn.entityRoom "task" "42") (Conn.PresenceUpdated data)]
     /\ Conn.pd_userId data = "u1"
     /\ Conn.pd_status data = "editing"
     /\ Conn.pd_cursorPosition data = Some (3, 7)
     /\ Conn.pd_userAvatar data = None)
  /\ fst (fst result) = s
  /\ snd (fst result) = ∅.
Proof.
  intros s.
  apply (presence_update_broadcasts_once 1000 false "task" "42" "editing"
           (Some (3, 7)) s ∅); discriminate.
Defined.

(** ** The handlers of the guide *)

(** An operation for an entity whose document was never initialized
    changes nothing and is answered to the sender alone, with
    ['Document not found']. *)
Theorem operation_for_unknown_document
    (entityType entityId : string) (operation : Operation)
    (persistFails : bool) (s : OT.Service) :
  OT.documentStates s !! entityId = None ->
  Guide.onOperationSend entityType entityId operation persistFails s
  = (s,
     [Guide.ToSender
        (Guide.OperationError (op_id operation) "Document not found")]).
Proof.
  intros Hnone. unfold Guide.onOperationSend, OT.applyOperation.
  rewrite Hnone. reflexivity.
Qed.

Lemma operation_for_unknown_document_witness :
  Guide.onOperationSend "task" "42" (mkInsert "i" 0 "x" "ann" 0) false
    (OT.initializeDocument "7" [] (OT.mkService ∅ []))
  = (OT.initializeDocument "7" [] (OT.mkService ∅ []),
     [Guide.ToSender (Guide.OperationError "i" "Document not found")]).
Proof.
  apply operation_for_unknown_document. reflexivity.
Defined.

(** The map after the removals of a disconnect does not depend on the
    database. *)
Lemma removeEach_cons_map (dbOk : string -> bool) (userId : string)
    (p : Presence.Presence) (rest : list Presence.Presence)
    (m : Presence.PresenceMap) :
  fst (Guide.removeEach dbOk userId (p :: rest) m)
  = fst (Guide.removeEach dbOk userId rest
           (Presence.mapDelete
              (Presence.presenceKey userId (Presence.p_entityType p)
                 (Presence.p_entityId p))
              m)).
Proof.
  cbn [Guide.removeEach]. unfold Presence.removePresence.
  destruct (dbOk _);
    destruct (Guide.removeEach dbOk userId rest _) as [m2 emitted'];
    reflexivity.
Qed.

(** The entries left by the removals of a disconnect: those whose key is
    not the key of one of the presences found. *)
Lemma removeEach_In (dbOk : string -> bool) (userId : string)
    (found : list Presence.Presence) :
  forall (m : Presence.PresenceMap) (k : string) (q : Presence.Presence),
    In (k, q) (fst (Guide.removeEach dbOk userId found m))
    <-> In (k, q) m
        /\ forall p, In p found ->
             k <> Presence.presenceKey userId (Presence.p_entityType p)
                    (Presence.p_entityId p).
Proof.
  induction found as [| p rest IH]; intros m k q.
  - simpl. split; [intros H; split; [exact H | intros p []] | intros [H _]].
    exact H.
  - rewrite removeEach_cons_map, IH. unfold Presence.mapDelete.
    rewrite filter_In. cbn [fst].
    set (key := Presence.presenceKey userId (Presence.p_entityType p)
                  (Presence.p_entityId p)).
    split.
    + intros [[Hin Hk] Hrest]. split; [exact Hin |].
      intros p0 [<- | Hp0]; [| apply Hrest; exact Hp0].
      fold key. destruct (String.eqb_spec k key); [discriminate | assumption].
    + intros [Hin Hall]. split; [split; [exact Hin |] |].
      * destruct (String.eqb_spec k key) as [Heq | Hne]; [| reflexivity].
        destruct (Hall p (or_introl eq_refl)). exact Heq.
      * intros p0 Hp0. apply Hall. right. exact Hp0.
Qed.

(** Every removal of a disconnect whose database call succeeds is
    broadcast. *)
Lemma removeEach_emits (dbOk : string -> bool) (userId : string)
    (found : list Presence.Presence) :
  forall (m : Presence.PresenceMap) (p : Presence.Presence),
    In p found ->
    dbOk (Presence.presenceKey userId (Presence.p_entityType p)
            (Presence.p_entityId p)) = true ->
    In (Presence.broadcastPresenceRemoval userId (Presence.p_entityType p)
          (Presence.p_entityId p))
       (snd (Guide.removeEach dbOk userId found m)).
Proof.
  induction found as [| p0 rest IH]; intros m p Hin Hok; [destruct Hin |].
  cbn [Guide.removeEach]. unfold Presence.removePresence.
  destruct Hin as [-> | Hin].
  - rewrite Hok.
    destruct (Guide.removeEach dbOk userId rest _) as [m2 emitted'].
    cbn [snd]. left. reflexivity.
  - specialize (IH (Presence.mapDelete
                      (Presence.presenceKey userId
                         (Presence.p_entityType p0) (Presence.p_entityId p0))
                      m) p Hin Hok).
    destruct (dbOk (Presence.presenceKey userId (Presence.p_entityType p0)
                      (Presence.p_entityId p0)));
      destruct (Guide.removeEach dbOk userId rest _) as [m2 emitted'];
      cbn [snd] in IH |- *; apply in_or_app; right; exact IH.
Qed.

(** X25. When a user disconnects, the handler of the guide deletes every
    presence of that user and no presence of anyone else, and broadcasts
    the removal of each one whose database delete succeeds to the room of
    its entity. *)
Theorem disconnect_removes_presences_of_user
    (dbOk : string -> bool) (userId : string) (m : Presence.PresenceMap) :
  Presence.wellKeyed m ->
  let result := Guide.onDisconnect dbOk userId m in
  Guide.getUserPresences userId (fst result) = []
  /\ (forall k p,
        In (k, p) m -> Presence.p_userId p <> userId ->
        In (k, p) (fst result))
  /\ (forall p,
        In p (Guide.getUserPresences userId m) ->
        dbOk (Presence.presenceKey userId (Presence.p_entityType p)
                (Presence.p_entityId p)) = true ->
        In (Presence.broadcastPresenceRemoval userId
              (Presence.p_entityType p) (Presence.p_entityId p))
           (snd result)).
Proof.
  intros [Hnd Hkeys] result. subst result. unfold Guide.onDisconnect.
  rewrite Forall_forall in Hkeys.
  assert (Hfound : forall p,
    In p (Guide.getUserPresences userId m)
    <-> (exists k, In (k, p) m) /\ Presence.p_userId p = userId).
  { intros p. unfold Guide.getUserPresences. rewrite filter_In, in_map_iff.
    split.
    - intros [([k p'] & Hp & Hin) Hu]. simpl in Hp. subst p'.
      split; [exists k; exact Hin | apply String.eqb_eq; exact Hu].
    - intros [(k & Hin) Hu]. split; [exists (k, p); split; [reflexivity |] |].
      + exact Hin.
      + apply String.eqb_eq. exact Hu. }
  assert (Hkey : forall k p,
    In (k, p) m ->
    k = Presence.presenceKey (Presence.p_userId p) (Presence.p_entityType p)
          (Presence.p_entityId p)).
  { intros k p Hin. apply (Hkeys (k, p)). apply list_elem_of_In. exact Hin. }
  split; [| split].
  - destruct (Guide.getUserPresences userId
                (fst (Guide.removeEach dbOk userId
                        (Guide.getUserPresences userId m) m)))
      as [| q rest] eqn:Hleft; [reflexivity |].
    assert (Hq : In q (q :: rest)) by (left; reflexivity).
    rewrite <- Hleft in Hq. unfold Guide.getUserPresences at 1 in Hq.
    apply filter_In in Hq as [Hq Hu]. apply String.eqb_eq in Hu.
    apply in_map_iff in Hq as ([k q'] & Hq' & Hin). simpl in Hq'. subst q'.
    apply removeEach_In in Hin as [Hin Hnot].
    destruct (Hnot q).
    + apply Hfound. split; [exists k; exact Hin | exact Hu].
    + rewrite <- Hu at 1. apply Hkey. exact Hin.
  - intros k p Hin Hu. apply removeEach_In. split; [exact Hin |].
    intros p' Hp' Heq. apply Hfound in Hp' as [(k' & Hin') Hu'].
    pose proof (Hkey k' p' Hin') as Hk'. rewrite Hu' in Hk'.
    rewrite <- Heq in Hk'. subst k'.
    pose proof (wellKeyed_functional m k p p' Hnd Hin Hin'). congruence.
  - intros p Hp Hok. apply removeEach_emits; assumption.
Qed.

Lemma disconnect_removes_presences_of_user_witness :
  let a :=
    Presence.mkPresence "ann:task:42" "ann" "task" "42" Presence.Editing
      None 1000 in
  let b :=
    Presence.mkPresence "bob:task:42" "bob" "task" "42" Presence.Viewing
      None 2000 in
  let m := [("ann:task:42", a); ("bob:task:42", b)] in
  let result := Guide.onDisconnect (fun _ => true) "ann" m in
  Guide.getUserPresences "ann" (fst result) = []
  /\ In ("bob:task:42", b) (fst result)
  /\ In (Presence.broadcastPresenceRemoval "ann" "task" "42") (snd result).
Proof.
  intros a b m.
  destruct (disconnect_removes_presences_of_user (fun _ => true) "ann" m)
    as (Hnone & Hothers & Hsent).
  - split.
    + simpl. repeat constructor; rewrite ?list_elem_of_In; simpl;
        intuition discriminate.
    + repeat constructor.
  - split; [exact Hnone | split].
    + apply Hothers; [right; left; reflexivity | discriminate].
    + apply (Hsent a); [left; reflexivity | reflexivity].
Defined.

(** ** The presence service, continued *)

(** A filter of a filter is the filter on both tests. *)
Lemma filter_twice {A : Type} (f g : A -> bool) (l : list A) :
  List.filter f (List.filter g l) = List.filter (fun x => g x && f x) l.
Proof.
  induction l as [| a rest IH]; [reflexivity |].
  simpl. destruct (g a); simpl; [destruct (f a) |]; rewrite IH; reflexivity.
Qed.

(** In a well keyed map, the presences of a user on an entity after [set]
    under the key of that user and entity: the one that was set. *)
Lemma mapSet_presences_of (userId entityType entityId : string)
    (new : Presence.Presence) (m : Presence.PresenceMap) :
  isPresenceOf userId entityType entityId new = true ->
  Presence.wellKeyed m ->
  List.filter (isPresenceOf userId entityType entityId)
    (map snd
       (Presence.mapSet (Presence.presenceKey userId entityType entityId)
          new m))
  = [new].
Proof.
  intros Hnew [Hnd Hkeys].
  set (key := Presence.presenceKey userId entityType entityId).
  assert (Hof : forall k p,
    k = Presence.presenceKey (Presence.p_userId p) (Presence.p_entityType p)
          (Presence.p_entityId p) ->
    isPresenceOf userId entityType entityId p = true -> k = key).
  { intros k p -> Hp. unfold isPresenceOf in Hp.
    apply andb_prop in Hp as [Hp H3]. apply andb_prop in Hp as [H1 H2].
    apply String.eqb_eq in H1, H2, H3. subst key. congruence. }
  induction m as [| [k' v'] rest IH]; simpl.
  - rewrite Hnew. reflexivity.
  - simpl in Hnd. apply NoDup_cons in Hnd as [Hfresh Hnd].
    apply Forall_cons in Hkeys as [Hk' Hkeys]. simpl in Hk'.
    destruct (String.eqb_spec k' key) as [-> | Hne]; simpl.
    + rewrite Hnew. f_equal.
      destruct (List.filter _ (map snd rest)) as [| q l] eqn:Hf;
        [reflexivity |].
      assert (Hq : In q (q :: l)) by (left; reflexivity).
      rewrite <- Hf in Hq. apply filter_In in Hq as [Hq Hp].
      apply in_map_iff in Hq as ([k q'] & Hq' & Hin). simpl in Hq'. subst q'.
      rewrite Forall_forall in Hkeys.
      assert (Hk : k = key).
      { apply (Hof k q); [| exact Hp].
        apply (Hkeys (k, q)). apply list_elem_of_In. exact Hin. }
      subst k. destruct Hfresh. apply list_elem_of_In.
      apply (in_map fst) in Hin. exact Hin.
    + destruct (isPresenceOf userId entityType entityId v') eqn:Hv'.
      * destruct Hne. apply (Hof k' v'); assumption.
      * apply IH; assumption.
Qed.

(** X26. After [updatePresence], in a map the service has built, the
    presences of the entity hold exactly one of the user: the one just
    made, with the status, the cursor and the time of the update; an
    earlier one is gone. This holds whether or not the database write
    succeeds. *)
Theorem updatePresence_leaves_one_presence
    (now : Z) (dbOk : string -> bool) (userId entityType entityId : string)
    (status : Presence.PresenceStatus) (cursor : option (Z * Z))
    (m : Presence.PresenceMap) :
  Presence.wellKeyed m ->
  let m' :=
    fst (fst (Presence.updatePresence now dbOk userId entityType entityId
                status cursor m)) in
  List.filter (fun p => String.eqb (Presence.p_userId p) userId)
    (Guide.getEntityPresences entityType entityId m')
  = [Presence.mkPresence
       (Presence.presenceKey userId entityType entityId) userId entityType
       entityId status cursor now].
Proof.
  intros Hm m'. subst m'. unfold Presence.updatePresence.
  set (new := Presence.mkPresence _ userId entityType entityId status cursor
                now).
  assert (Hm' : fst (fst (if dbOk (Presence.presenceKey userId entityType
                                     entityId)
                          then (Presence.mapSet
                                  (Presence.presenceKey userId entityType
                                     entityId) new m,
                                [Presence.broadcastPresenceUpdate new], true)
                          else (Presence.mapSet
                                  (Presence.presenceKey userId entityType
                                     entityId) new m,
                                [], false)))
                = Presence.mapSet
                    (Presence.presenceKey userId entityType entityId) new m)
    by (destruct (dbOk _); reflexivity).
  rewrite Hm'. unfold Guide.getEntityPresences.
  rewrite <- (mapSet_presences_of userId entityType entityId new m);
    [| unfold isPresenceOf; subst new; simpl; rewrite !String.eqb_refl;
       reflexivity
     | exact Hm].
  rewrite filter_twice. apply filter_ext. intros p. unfold isPresenceOf.
  destruct (String.eqb (Presence.p_entityType p) entityType);
    destruct (String.eqb (Presence.p_entityId p) entityId);
    destruct (String.eqb (Presence.p_userId p) userId); reflexivity.
Qed.

Lemma updatePresence_leaves_one_presence_witness :
  let old :=
    Presence.mkPresence "ann:task:42" "ann" "task" "42" Presence.Viewing
      None 1000 in
  let m := [("ann:task:42", old)] in
  let m' :=
    fst (fst (Presence.updatePresence 5000 (fun _ => false) "ann" "task" "42"
                Presence.Editing (Some (1, 2)) m)) in
  List.filter (fun p => String.eqb (Presence.p_userId p) "ann")
    (Guide.getEntityPresences "task" "42" m')
  = [Presence.mkPresence (Presence.presenceKey "ann" "task" "42") "ann"
       "task" "42" Presence.Editing (Some (1, 2)) 5000].
Proof.
  intros old m.
  apply (updatePresence_leaves_one_presence 5000 (fun _ => false) "ann" "task"
           "42" Presence.Editing (Some (1, 2)) m).
  split; [| repeat constructor].
  simpl. repeat constructor. rewrite list_elem_of_In. simpl. tauto.
Defined.

(** ** The client *)

(** The first operation with an id removed from a list that holds none
    with that id but the last. *)
Lemma removeFirstWithId_app_new (operation : Operation)
    (ops : list Operation) :
  Forall (fun o => op_id o <> op_id operation) ops ->
  Client.removeFirstWithId (op_id operation) (ops ++ [operation]) = ops.
Proof.
  induction 1 as [| o rest Ho _ IH]; simpl.
  - rewrite String.eqb_refl. reflexivity.
  - destruct (String.eqb_spec (op_id o) (op_id operation));
      [contradiction | f_equal; exact IH].
Qed.

(** X27. The acknowledgement of an operation undoes the bookkeeping of
    [applyLocalOperation] and nothing else, whatever the [applyOperation]
    of the client does to the content: the local operations and the
    operations awaiting an acknowledgement are as before the operation,
    the content is left as [applyLocalOperation] made it, and the version
    of the client does not move, although the operation was sent with it.
    The id of the operation is taken to be new to the client. *)
Theorem ack_undoes_local_bookkeeping
    (applyOperation : option (list ascii) -> Operation -> option (list ascii))
    (operation : Operation) (c : Client.OTClient) :
  Client.awaitingAck c !! op_id operation = None ->
  Forall (fun o => op_id o <> op_id operation) (Client.localOperations c) ->
  let c1 := Client.applyLocalOperation applyOperation operation c in
  let c' := Client.handleOperationAck (op_id operation) c1 in
  Client.localOperations c' = Client.localOperations c
  /\ Client.awaitingAck c' = Client.awaitingAck c
  /\ Client.currentContent c' = Client.currentContent c1
  /\ Client.version c' = Client.version c
  /\ Client.sent c'
     = Client.sent c
         ++ [Gateway.mkOperationData (Client.entityType c)
               (Client.entityId c) (Some operation) (Client.version c)].
Proof.
  intros Hfree Hnew c1 c'. subst c' c1.
  unfold Client.handleOperationAck, Client.applyLocalOperation.
  cbn [Client.awaitingAck Client.localOperations]. rewrite lookup_insert_eq.
  cbn [Client.localOperations Client.awaitingAck Client.currentContent
       Client.version Client.sent].
  rewrite (removeFirstWithId_app_new operation _ Hnew).
  rewrite delete_insert_eq, delete_id by exact Hfree.
  repeat split.
Qed.

Lemma ack_undoes_local_bookkeeping_witness :
  let op := mkInsert "op-1" 0 "a" "ann" 10 in
  let c := Client.create "42" "task" (JS.chars "bc") in
  let c1 := Client.applyLocalOperation Client.applyOperationAsWritten op c in
  let c' := Client.handleOperationAck "op-1" c1 in
  Client.localOperations c' = []
  /\ Client.awaitingAck c' = ∅
  /\ Client.currentContent c' = Client.currentContent c1
  /\ Client.version c' = 0
  /\ Client.sent c'
     = [] ++ [Gateway.mkOperationData "task" "42" (Some op) 0].
Proof.
  intros op c.
  apply (ack_undoes_local_bookkeeping Client.applyOperationAsWritten op c);
    [reflexivity | constructor].
Defined.

(** ** The presence lists of the interface *)

Lemma NoDup_snoc {A : Type} (l : list A) (x : A) :
  List.NoDup l -> ~ List.In x l -> List.NoDup (l ++ [x]).
Proof.
  induction 1 as [| y l Hy Hl IH]; intros Hx; simpl.
  - constructor; [intros [] | constructor].
  - constructor.
    + rewrite in_app_iff. intros [Hin | [Heq | []]].
      * exact (Hy Hin).
      * apply Hx. left. symmetry. exact Heq.
    + apply IH. intros Hin. apply Hx. right. exact Hin.
Qed.

Lemma NoDup_map_filter {A B : Type} (f : A -> B) (g : A -> bool)
    (l : list A) :
  List.NoDup (map f l) -> List.NoDup (map f (List.filter g l)).
Proof.
  induction l as [| a l IH]; simpl; intros Hnd; [constructor |].
  apply List.NoDup_cons_iff in Hnd. destruct Hnd as [Ha Hl].
  destruct (g a); simpl; [| exact (IH Hl)].
  constructor; [| exact (IH Hl)].
  intros Hin. apply Ha. apply in_map_iff in Hin.
  destruct Hin as [b [Hb Hin]]. apply filter_In in Hin.
  apply in_map_iff. exists b. tauto.
Qed.

Lemma sameTriple_true (p q : Presence.Presence) :
  PresenceUI.sameTriple p q = true <-> tripleOf p = tripleOf q.
Proof.
  unfold PresenceUI.sameTriple, tripleOf.
  rewrite !andb_true_iff, !String.eqb_eq. split.
  - intros [[-> ->] ->]. reflexivity.
  - intros Heq. inversion Heq. tauto.
Qed.

Lemma reduce_keeps_one_per_triple (prev : list Presence.Presence)
    (event : PresenceUI.Event) :
  List.NoDup (map tripleOf prev) ->
  List.NoDup (map tripleOf (PresenceUI.reduce prev event)).
Proof.
  intros Hnd. destruct event as [presence | userId]; simpl.
  - unfold PresenceUI.handlePresenceUpdate. rewrite map_app. simpl.
    apply NoDup_snoc; [apply NoDup_map_filter; exact Hnd |].
    intros Hin. apply in_map_iff in Hin. destruct Hin as [q [Hq Hin]].
    apply filter_In in Hin. destruct Hin as [_ Hneg].
    apply negb_true_iff in Hneg.
    apply sameTriple_true in Hq. congruence.
  - unfold PresenceUI.handlePresenceRemove.
    apply NoDup_map_filter. exact Hnd.
Qed.

(** X29. The list of [usePresence] holds at most one presence for a user
    on an entity, whatever updates and removals reach it and in whatever
    order; and right after an update the presence of that update is the
    last of the list. *)
Theorem usePresence_one_entry_per_user_and_entity
    (events : list PresenceUI.Event) :
  List.NoDup (map tripleOf (fold_left PresenceUI.reduce events []))
  /\ (forall presence : Presence.Presence,
        List.last
          (fold_left PresenceUI.reduce
             (events ++ [PresenceUI.Updated presence]) [])
          presence
        = presence
        /\ List.filter (fun p => PresenceUI.sameTriple p presence)
             (fold_left PresenceUI.reduce
                (events ++ [PresenceUI.Updated presence]) [])
           = [presence]).
Proof.
  assert (Hrun : forall evs prev,
            List.NoDup (map tripleOf prev) ->
            List.NoDup (map tripleOf (fold_left PresenceUI.reduce evs prev))).
  { induction evs as [| e evs IH]; intros prev Hnd; [exact Hnd |].
    simpl. apply IH. apply reduce_keeps_one_per_triple. exact Hnd. }
  split; [apply Hrun; constructor |].
  intros presence. rewrite fold_left_app. simpl.
  unfold PresenceUI.handlePresenceUpdate. split.
  - apply List.last_last.
  - rewrite List.filter_app. simpl.
    assert (Hself : PresenceUI.sameTriple presence presence = true)
      by (apply sameTriple_true; reflexivity).
    rewrite Hself.
    rewrite filter_twice.
    rewrite (filter_ext _ (fun _ => false)).
    + induction (fold_left PresenceUI.reduce events []); auto.
    + intros p. destruct (PresenceUI.sameTriple p presence); reflexivity.
Qed.

Lemma handlePresenceUpdated_users (prev : list PresenceUI.UserPresence)
    (data : Conn.PresenceData) :
  map PresenceUI.up_userId (PresenceUI.handlePresenceUpdated prev data)
  = if existsb
         (fun p => String.eqb (PresenceUI.up_userId p) (Conn.pd_userId data))
         prev
    then map PresenceUI.up_userId prev
    else map PresenceUI.up_userId prev ++ [Conn.pd_userId data].
Proof.
  induction prev as [| p rest IH]; [reflexivity |].
  simpl.
  destruct (String.eqb_spec (PresenceUI.up_userId p) (Conn.pd_userId data))
    as [Heq | Hne]; simpl.
  - unfold PresenceUI.up_userId at 1. simpl. rewrite Heq. reflexivity.
  - rewrite IH.
    destruct (existsb _ rest); reflexivity.
Qed.

Lemma handleUserDisconnected_users (relative : string)
    (prev : list PresenceUI.UserPresence) (userId : string) :
  map PresenceUI.up_userId
    (PresenceUI.handleUserDisconnected relative prev userId)
  = map PresenceUI.up_userId prev.
Proof.
  unfold PresenceUI.handleUserDisconnected. rewrite map_map.
  apply map_ext. intros p.
  destruct (String.eqb (PresenceUI.up_userId p) userId); reflexivity.
Qed.

Lemma reduceIndicator_users (prev : list PresenceUI.UserPresence)
    (event : PresenceUI.IndicatorEvent) :
  (List.NoDup (map PresenceUI.up_userId prev) ->
   List.NoDup (map PresenceUI.up_userId (PresenceUI.reduceIndicator prev event)))
  /\ (forall u, List.In u (map PresenceUI.up_userId prev) ->
        List.In u
          (map PresenceUI.up_userId (PresenceUI.reduceIndicator prev event)))
  /\ (forall data, event = PresenceUI.PresenceUpdated data ->
        List.In (Conn.pd_userId data)
          (map PresenceUI.up_userId (PresenceUI.reduceIndicator prev event))).
Proof.
  destruct event as [data | relative userId]; simpl.
  - rewrite handlePresenceUpdated_users.
    destruct (existsb _ prev) eqn:Hex.
    + repeat split; auto.
      intros data' Heq. injection Heq as <-.
      apply existsb_exists in Hex. destruct Hex as [p [Hin Hp]].
      apply String.eqb_eq in Hp. rewrite <- Hp.
      apply in_map. exact Hin.
    + repeat split.
      * intros Hnd. apply NoDup_snoc; [exact Hnd |].
        intros Hin. apply in_map_iff in Hin. destruct Hin as [p [Hp Hin]].
        assert (Htrue : existsb
                  (fun p => String.eqb (PresenceUI.up_userId p)
                              (Conn.pd_userId data)) prev = true).
        { apply existsb_exists. exists p. split; [exact Hin |].
          apply String.eqb_eq. exact Hp. }
        congruence.
      * intros u Hu. apply in_app_iff. left. exact Hu.
      * intros data' Heq. injection Heq as <-.
        apply in_app_iff. right. apply in_eq.
  - rewrite handleUserDisconnected_users.
    repeat split; auto. intros data Heq. discriminate Heq.
Qed.

(** X30. The list of [PresenceIndicator] holds one entry for a user,
    whatever events reach it, and it does not forget: a user whose
    presence was once received stays in the list, since the disconnection
    of a user marks the entry and no event removes one. *)
Theorem indicator_keeps_every_user_once
    (events : list PresenceUI.IndicatorEvent) (data : Conn.PresenceData) :
  List.In (PresenceUI.PresenceUpdated data) events ->
  let shown := fold_left PresenceUI.reduceIndicator events [] in
  List.NoDup (map PresenceUI.up_userId shown)
  /\ List.In (Conn.pd_userId data) (map PresenceUI.up_userId shown).
Proof.
  intros Hin shown. subst shown.
  assert (Hrun : forall evs prev,
    (List.NoDup (map PresenceUI.up_userId prev) ->
     List.NoDup
       (map PresenceUI.up_userId
          (fold_left PresenceUI.reduceIndicator evs prev)))
    /\ (forall u,
          List.In u (map PresenceUI.up_userId prev)
          \/ (exists d, List.In (PresenceUI.PresenceUpdated d) evs
                        /\ Conn.pd_userId d = u) ->
          List.In u
            (map PresenceUI.up_userId
               (fold_left PresenceUI.reduceIndicator evs prev)))).
  { induction evs as [| e evs IH]; intros prev.
    - split; [auto |]. intros u [Hu | [d [[] _]]]. exact Hu.
    - simpl. destruct (IH (PresenceUI.reduceIndicator prev e)) as [IHn IHi].
      destruct (reduceIndicator_users prev e) as [Hn [Hk Hnew]].
      split; [intros Hnd; apply IHn, Hn, Hnd |].
      intros u [Hu | [d [[Heq | Hd] Hdu]]].
      + apply IHi. left. apply Hk. exact Hu.
      + apply IHi. left. subst u. apply Hnew. exact Heq.
      + apply IHi. right. exists d. split; assumption. }
  destruct (Hrun events []) as [Hn Hi].
  split; [apply Hn; constructor |].
  apply Hi. right. exists data. split; [exact Hin | reflexivity].
Qed.

Lemma indicator_keeps_every_user_once_witness :
  let ann :=
    Conn.mkPresenceData "ann" "Ann Lee" None "task" "42" "viewing" None 10
      (Some "#FF6B6B") in
  let shown :=
    fold_left PresenceUI.reduceIndicator
      [PresenceUI.PresenceUpdated ann;
       PresenceUI.UserDisconnected "1m ago" "ann"] [] in
  List.NoDup (map PresenceUI.up_userId shown)
  /\ List.In "ann" (map PresenceUI.up_userId shown).
Proof.
  intros ann.
  apply (indicator_keeps_every_user_once
           [PresenceUI.PresenceUpdated ann;
            PresenceUI.UserDisconnected "1m ago" "ann"] ann).
  left. reflexivity.
Defined.
